(** * xprpy / pyntelope [net.py]: the request executor, the paginator and the
      connection scope of class [Net], embedded in Rocq.

    The embedding follows [src/pyntelope/net.py] line by line.  Python
    values are an inductive type, dictionaries are insertion-ordered
    association lists, exceptions are values of a result type, and the
    object state touched by the methods ([self.client], the transport handles
    and the calls made on them) is threaded through a small state-and-error
    monad. *)

From Stdlib Require Import ZArith Lia Bool.
From Stdlib.Strings Require Import Ascii Byte.
From stdpp Require Import base option list strings.

Set Warnings "-register-all".

Open Scope Z_scope.
Open Scope string_scope.

(** ** Python values *)

(** The values that travel through [net.py]: what [resp.json()] yields and
    what the keyword arguments of the endpoint methods hold. *)
Inductive pyobj : Type :=
  | PNone
  | PBool (b : bool)
  | PInt (n : Z)
  | PFloat (mantissa exponent : Z)
  | PStr (s : string)
  | PList (l : list pyobj)
  | PDict (d : list (string * pyobj)).

(** A [dict] with string keys, in insertion order. *)
Definition dict (V : Type) : Type := list (string * V).

(** Python truth value of an object ([not x] is its negation). *)
Definition truthy (v : pyobj) : bool :=
  match v with
  | PNone => false
  | PBool b => b
  | PInt n => negb (Z.eqb n 0)
  | PFloat m _ => negb (Z.eqb m 0)
  | PStr s => negb (String.eqb s "")
  | PList l => match l with [] => false | _ => true end
  | PDict d => match d with [] => false | _ => true end
  end.

(** [d.get(k)] / [k in d] on the association list: the first binding. *)
Fixpoint dict_get {V} (d : dict V) (k : string) : option V :=
  match d with
  | [] => None
  | (k', v) :: d' => if String.eqb k k' then Some v else dict_get d' k
  end.

(** [d[k] = v]: an existing key keeps its position, a new key goes last. *)
Fixpoint dict_set {V} (d : dict V) (k : string) (v : V) : dict V :=
  match d with
  | [] => [(k, v)]
  | (k', v') :: d' =>
      if String.eqb k k' then (k, v) :: d' else (k', v') :: dict_set d' k v
  end.

(** [del d[k]]. *)
Fixpoint dict_del {V} (d : dict V) (k : string) : dict V :=
  match d with
  | [] => []
  | (k', v') :: d' =>
      if String.eqb k k' then d' else (k', v') :: dict_del d' k
  end.

(** [d.update(other)]. *)
Definition dict_update {V} (d other : dict V) : dict V :=
  fold_left (fun acc kv => dict_set acc (fst kv) (snd kv)) other d.

Definition dict_keys {V} (d : dict V) : list string := map fst d.

Definition is_None (v : pyobj) : bool :=
  match v with PNone => true | _ => false end.

(** [{k: v for k, v in payload.items() if v is not None}]. *)
Definition drop_none (payload : dict pyobj) : dict pyobj :=
  List.filter (fun kv => negb (is_None (snd kv))) payload.

(** ** Exceptions *)

(** The exception classes of the transport library, with their parents. *)
Inductive httpx_class : Type :=
  | HTTPError | RequestError | TransportError
  | TimeoutException | ConnectTimeout | ReadTimeout | WriteTimeout | PoolTimeout
  | NetworkError | ConnectError | ReadError | WriteError | CloseError
  | ProtocolError | LocalProtocolError | RemoteProtocolError
  | ProxyError | UnsupportedProtocol
  | DecodingError | TooManyRedirects.

Definition httpx_parent (c : httpx_class) : option httpx_class :=
  match c with
  | HTTPError => None
  | RequestError => Some HTTPError
  | TransportError | DecodingError | TooManyRedirects => Some RequestError
  | TimeoutException | NetworkError | ProtocolError
  | ProxyError | UnsupportedProtocol => Some TransportError
  | ConnectTimeout | ReadTimeout | WriteTimeout | PoolTimeout =>
      Some TimeoutException
  | ConnectError | ReadError | WriteError | CloseError => Some NetworkError
  | LocalProtocolError | RemoteProtocolError => Some ProtocolError
  end.

Definition httpx_class_eqb (a b : httpx_class) : bool :=
  match a, b with
  | HTTPError, HTTPError | RequestError, RequestError
  | TransportError, TransportError
  | TimeoutException, TimeoutException | ConnectTimeout, ConnectTimeout
  | ReadTimeout, ReadTimeout | WriteTimeout, WriteTimeout
  | PoolTimeout, PoolTimeout
  | NetworkError, NetworkError | ConnectError, ConnectError
  | ReadError, ReadError | WriteError, WriteError | CloseError, CloseError
  | ProtocolError, ProtocolError | LocalProtocolError, LocalProtocolError
  | RemoteProtocolError, RemoteProtocolError
  | ProxyError, ProxyError | UnsupportedProtocol, UnsupportedProtocol
  | DecodingError, DecodingError | TooManyRedirects, TooManyRedirects => true
  | _, _ => false
  end.

(** [issubclass(c, anc)]; the hierarchy is four levels deep. *)
Fixpoint issubclass_upto (depth : nat) (c anc : httpx_class) : bool :=
  httpx_class_eqb c anc ||
  match depth with
  | O => false
  | S depth' =>
      match httpx_parent c with
      | Some p => issubclass_upto depth' p anc
      | None => false
      end
  end.

Definition issubclass : httpx_class -> httpx_class -> bool :=
  issubclass_upto 4.

(** What the transport hands back: an integer status code and a body on which
    [json()] either yields a value or fails to decode. *)
Record response : Type := Response {
  status_code : Z;
  json_body : option pyobj
}.

(** Exceptions that can leave the methods of [Net]. *)
Inductive exc : Type :=
  | Httpx (cls : httpx_class) (msg : string)
  | RuntimeError (msg : string)
  | ValidationError (input : string)
  | JSONDecodeError
  | KeyError (key : string)
  | TypeError
  | AttributeError
  | ValueError (msg : string)
  | ConnectionError (resp : option response) (url : string)
      (payload : pyobj) (error : option exc).

Inductive result (A : Type) : Type :=
  | Ok (a : A)
  | Raise (e : exc).
Arguments Ok {A} a.
Arguments Raise {A} e.

(** ** Operations on Python values used by [get_table_rows] *)

Definition is_str (k : string) (v : pyobj) : bool :=
  match v with PStr s => String.eqb s k | _ => false end.

(** [k in data] for a string [k]. *)
Definition py_contains (k : string) (data : pyobj) : result bool :=
  match data with
  | PDict d => Ok (if dict_get d k is Some _ then true else false)
  | PList l => Ok (existsb (is_str k) l)
  | PStr s => Ok (if String.index 0 k s is Some _ then true else false)
  | _ => Raise TypeError
  end.

(** [data[k]] for a string [k]. *)
Definition py_getitem (data : pyobj) (k : string) : result pyobj :=
  match data with
  | PDict d =>
      match dict_get d k with
      | Some v => Ok v
      | None => Raise (KeyError k)
      end
  | _ => Raise TypeError
  end.

(** [data.get(k)]. *)
Definition py_get (data : pyobj) (k : string) : result pyobj :=
  match data with
  | PDict d => Ok (default PNone (dict_get d k))
  | _ => Raise AttributeError
  end.

(** The elements [rows += v] appends: those of a list, the characters of a
    string, the keys of a dict; anything else is not iterable. *)
Definition py_iter (v : pyobj) : result (list pyobj) :=
  match v with
  | PList l => Ok l
  | PStr s =>
      Ok (map (fun c => PStr (String c EmptyString)) (String.list_ascii_of_string s))
  | PDict d => Ok (map PStr (dict_keys d))
  | _ => Raise TypeError
  end.

(** ** Requests, transport handles and the object state *)

Definition handle : Type := nat.

(** The arguments of one [client.post(url, json=, headers=, auth=)]. *)
Record request : Type := Request {
  req_url : string;
  req_json : pyobj;
  req_headers : dict string;
  req_auth : option (string * string)
}.

(** Calls made on the transport library, oldest first. *)
Inductive event : Type :=
  | Client_new (h : handle)
  | Client_post (h : handle) (r : request)
  | Client_exit (h : handle).

(** The attributes of a [Net] object. *)
Record Net : Type := MkNet {
  host : string;
  headers : dict string;
  auth : option (string * string);
  client : option handle
}.

(** The [Net] object the methods run on, the transport handles (which of
    them have been closed, and the next fresh one) and the calls made. *)
Record state : Type := State {
  self : Net;
  closed : handle -> bool;
  next_handle : handle;
  trace : list event
}.

Definition posts (tr : list event) : list request :=
  flat_map (fun e => match e with Client_post _ r => [r] | _ => [] end) tr.

Definition creations (tr : list event) : list handle :=
  flat_map (fun e => match e with Client_new h => [h] | _ => [] end) tr.

Definition exits (tr : list event) : list handle :=
  flat_map (fun e => match e with Client_exit h => [h] | _ => [] end) tr.

(** ** The state-and-exception monad *)

Definition M (A : Type) : Type := state -> result A * state.

Definition ret {A} (a : A) : M A := fun st => (Ok a, st).
Definition raise {A} (e : exc) : M A := fun st => (Raise e, st).
Definition lift {A} (r : result A) : M A := fun st => (r, st).

Definition bind {A B} (m : M A) (f : A -> M B) : M B :=
  fun st =>
    match m st with
    | (Ok a, st') => f a st'
    | (Raise e, st') => (Raise e, st')
    end.

Notation "x <- c1 ;; c2" := (bind c1 (fun x => c2))
  (at level 100, c1 at next level, right associativity).

(** [try: m  except <classes selected by handler>: ...]; an exception the
    handler does not select propagates. *)
Definition try_except {A} (m : M A) (handler : exc -> option (M A)) : M A :=
  fun st =>
    match m st with
    | (Ok a, st') => (Ok a, st')
    | (Raise e, st') =>
        match handler e with
        | Some h => h st'
        | None => (Raise e, st')
        end
    end.

Definition get_self : M Net := fun st => (Ok (self st), st).

Definition set_client (c : option handle) : M unit :=
  fun st =>
    (Ok tt,
     {| self := {| host := host (self st); headers := headers (self st);
                   auth := auth (self st); client := c |};
        closed := closed st; next_handle := next_handle st;
        trace := trace st |}).

Definition record_event (e : event) (st : state) : state :=
  {| self := self st; closed := closed st; next_handle := next_handle st;
     trace := (trace st ++ [e])%list |}.

Definition mark (h : handle) (b : bool) (st : state) : state :=
  {| self := self st;
     closed := fun h' => if Nat.eqb h' h then b else closed st h';
     next_handle := next_handle st; trace := trace st |}.

(** ** The transport collaborator *)

Definition closed_msg : string :=
  "Cannot send a request, as the client has been closed.".

(** [httpx.Client()]: a fresh, open handle. *)
Definition httpx_Client : M handle :=
  fun st =>
    let h := next_handle st in
    (Ok h,
     {| self := self st;
        closed := fun h' => if Nat.eqb h' h then false else closed st h';
        next_handle := S h;
        trace := (trace st ++ [Client_new h])%list |}).

(** [client.__exit__(...)]: the handle is closed from now on. *)
Definition client_exit (h : handle) : M unit :=
  fun st => (Ok tt, record_event (Client_exit h) (mark h true st)).

(** [except (httpx.TimeoutException, httpx.NetworkError, httpx.WriteError)]. *)
Definition is_transport_failure (e : exc) : bool :=
  match e with
  | Httpx c _ =>
      issubclass c TimeoutException || issubclass c NetworkError
      || issubclass c WriteError
  | _ => false
  end.

(** [resp.json()]. *)
Definition resp_json (resp : response) : M pyobj :=
  match json_body resp with
  | Some v => ret v
  | None => raise JSONDecodeError
  end.

Definition table_rows_endpoint : string := "/v1/chain/get_table_rows".
Definition too_many_msg : string := "Too many requests (>1000) for table".

(** ** Bytes and the values of the remaining endpoint methods *)

Definition post_handles (tr : list event) : list handle :=
  flat_map (fun e => match e with Client_post h _ => [h] | _ => [] end) tr.

(** [len(data)]; a [str] is counted in its one-byte characters. *)
Definition py_len (data : pyobj) : result nat :=
  match data with
  | PDict d => Ok (length d)
  | PList l => Ok (length l)
  | PStr s => Ok (String.length s)
  | _ => Raise TypeError
  end.

Definition hex_digits : list ascii :=
  String.list_ascii_of_string "0123456789abcdef".

Definition hex_digit (n : N) : ascii :=
  nth (N.to_nat n) hex_digits "0"%char.

(** The two lower-case digits [bytes.hex()] writes for one byte. *)
Definition byte_hex (b : byte) : list ascii :=
  [hex_digit (N.div (Byte.to_N b) 16); hex_digit (N.modulo (Byte.to_N b) 16)].

(** [b.hex()]. *)
Definition bytes_hex (b : list byte) : string :=
  String.string_of_list_ascii (flat_map byte_hex b).

(** The value of a hexadecimal digit, of either case. *)
Definition hex_value (c : ascii) : option N :=
  let n := N_of_ascii c in
  if N.leb 48 n && N.leb n 57 then Some (n - 48)%N
  else if N.leb 97 n && N.leb n 102 then Some (n - 87)%N
  else if N.leb 65 n && N.leb n 70 then Some (n - 55)%N
  else None.

(** ASCII whitespace, which [bytes.fromhex] skips between bytes. *)
Definition is_space (c : ascii) : bool :=
  let n := N_of_ascii c in
  N.eqb n 32 || (N.leb 9 n && N.leb n 13).

(** [bytes.fromhex] on the characters of its argument: two digits per byte,
    whitespace allowed between bytes; [None] when it raises. *)
Fixpoint fromhex_chars (l : list ascii) : option (list byte) :=
  match l with
  | [] => Some []
  | c :: rest =>
      if is_space c then fromhex_chars rest
      else
        match rest with
        | [] => None
        | d :: rest' =>
            match hex_value c, hex_value d with
            | Some hi, Some lo =>
                match Byte.of_N (16 * hi + lo), fromhex_chars rest' with
                | Some b, Some bs => Some (b :: bs)
                | _, _ => None
                end
            | _, _ => None
            end
        end
  end.

(** The start of the message of the [ValueError] [bytes.fromhex] raises (the
    interpreter goes on with the position). *)
Definition fromhex_msg : string :=
  "non-hexadecimal number found in fromhex() arg".

(** [bytes.fromhex(v)]: [v] must be a [str]. *)
Definition bytes_fromhex (v : pyobj) : result (list byte) :=
  match v with
  | PStr s =>
      match fromhex_chars (String.list_ascii_of_string s) with
      | Some b => Ok b
      | None => Raise (ValueError fromhex_msg)
      end
  | _ => Raise TypeError
  end.

(** [None], a [bool] or a number: neither a container nor iterable. *)
Definition is_scalar (v : pyobj) : bool :=
  match v with
  | PNone | PBool _ | PInt _ | PFloat _ _ => true
  | _ => false
  end.

(** A value of the dict [get_raw_code_and_abi] returns: what the node sent,
    or decoded bytes. *)
Inductive pyval : Type :=
  | Obj (o : pyobj)
  | Bytes (b : list byte).

(** ** Sample collaborators and data *)

Module Sample.

(** Joining a host without a path and an absolute endpoint path. *)
Definition urljoin (h e : string) : string := h +:+ e.

Definition version : string := "1.0.0".

Definition local_host : string := "http://127.0.0.1:8888".

(** [Local()], outside any scope. *)
Definition fresh : state :=
  {| self := {| host := local_host; headers := []; auth := None;
                client := None |};
     closed := fun _ => false; next_handle := 0%nat; trace := [] |}.

(** [Local(client=c)] for a handle [c] the caller opened. *)
Definition supplied : state :=
  {| self := {| host := local_host; headers := []; auth := None;
                client := Some 0%nat |};
     closed := fun _ => false; next_handle := 1%nat; trace := [] |}.

Definition page1 : response :=
  {| status_code := 200;
     json_body :=
       Some (PDict [("rows", PList [PInt 1; PInt 2]);
                    ("more", PBool true); ("next_key", PStr "x")]) |}.

Definition page2 : response :=
  {| status_code := 200;
     json_body :=
       Some (PDict [("rows", PList [PInt 3]); ("more", PBool false)]) |}.

Definition page_without_key : response :=
  {| status_code := 200;
     json_body :=
       Some (PDict [("rows", PList [PInt 3]); ("more", PBool true)]) |}.

Definition error_page : response :=
  {| status_code := 500;
     json_body :=
       Some (PDict [("code", PInt 500);
                    ("message", PStr "Internal Service Error")]) |}.

Definition info_page : response :=
  {| status_code := 200;
     json_body := Some (PDict [("chain_id", PStr "aaaa")]) |}.

Definition not_found : response :=
  {| status_code := 404; json_body := Some (PDict []) |}.

(** Remote nodes. *)
Definition then_ (first other : response) (n : nat) (_ : request)
    : result response :=
  match n with
  | O => Ok first
  | S _ => Ok other
  end.

Definition always (r : result response) (_ : nat) (_ : request)
    : result response := r.

Definition read_timeout : exc := Httpx ReadTimeout "timed out".

(** [Local(headers={"user-agent": "aaa", "x-bbb": "ccc"})]. *)
Definition custom : state :=
  {| self := {| host := local_host;
                headers := [("user-agent", "aaa"); ("x-bbb", "ccc")];
                auth := None; client := None |};
     closed := fun _ => false; next_handle := 0%nat; trace := [] |}.

(** An object whose handle has been closed. *)
Definition left_scope : state :=
  {| self := {| host := local_host; headers := []; auth := None;
                client := Some 0%nat |};
     closed := fun _ => true; next_handle := 1%nat; trace := [] |}.

Definition garbled : response :=
  {| status_code := 200; json_body := None |}.

Definition null_body : response :=
  {| status_code := 200; json_body := Some PNone |}.

Definition binargs_page : response :=
  {| status_code := 200;
     json_body := Some (PDict [("binargs", PStr "dead")]) |}.

Definition no_abi_page : response :=
  {| status_code := 200;
     json_body := Some (PDict [("account_name", PStr "user1")]) |}.

Definition raw_page : response :=
  {| status_code := 200;
     json_body :=
       Some (PDict [("account_name", PStr "user1"); ("wasm", PStr "");
                    ("abi", PStr "")]) |}.

Definition disconnected : exc :=
  Httpx RemoteProtocolError "Server disconnected".

(** A node that answers once and then times out. *)
Definition then_raise (first : response) (e : exc) (n : nat) (_ : request)
    : result response :=
  match n with
  | O => Ok first
  | S _ => Raise e
  end.

(** [base64.b64decode] on the empty string, which encodes no bytes. *)
Definition b64decode_empty (v : pyobj) : result (list byte) :=
  match v with
  | PStr EmptyString => Ok []
  | _ => Raise TypeError
  end.

End Sample.

Section NetClass.

(** What [net.py] takes from elsewhere: [urllib.parse.urljoin], the package's
    [__version__], pydantic's [AnyHttpUrl] check, and the outcome of the
    [n]-th [post] call (counted from 0) made on an open handle. *)
Variable urljoin : string -> string -> string.
Variable __version__ : string.
Variable any_http_url : string -> bool.
Variable server : nat -> request -> result response.

(** [client.post(...)]: a closed handle refuses with [RuntimeError] (the unit
    tests [..._outside_the_context_manager_then_get_info_raises_error] pin
    this down); an open one hands the request to the remote node. *)
Definition client_post (h : handle) (r : request) : M response :=
  fun st =>
    if closed st h
    then (Raise (RuntimeError closed_msg), record_event (Client_post h r) st)
    else (server (length (posts (trace st))) r,
          record_event (Client_post h r) st).

(** [Net.__init__] (and the [__init__] that [__new__] installs for the
    subclasses with a [default_host]): validate, then store. *)
Definition __init__ (host : string) (headers : dict string)
    (auth : option (string * string)) (client : option handle) : result Net :=
  if any_http_url host
  then Ok {| host := host; headers := headers; auth := auth; client := client |}
  else Raise (ValidationError host).

Definition default_headers : dict string :=
  [("user-agent", "xprpy/" +:+ __version__);
   ("content-type", "application/json")].

(** [Net._request]. *)
Definition _request (endpoint : string) (payload : pyobj) : M pyobj :=
  slf <- get_self ;;
  let url := urljoin (host slf) endpoint in
  let hdrs := dict_update default_headers (headers slf) in
  cl <- match client slf with
        | Some c => ret c
        | None => httpx_Client
        end ;;
  resp <- try_except
            (client_post cl
               {| req_url := url; req_json := payload; req_headers := hdrs;
                  req_auth := auth slf |})
            (fun e =>
               if is_transport_failure e
               then Some (raise (ConnectionError None url payload (Some e)))
               else None) ;;
  if Z.ltb 299 (status_code resp) && negb (Z.eqb (status_code resp) 500)
  then raise (ConnectionError (Some resp) url payload None)
  else resp_json resp.

(** [Net.get_info]. *)
Definition get_info : M pyobj :=
  _request "/v1/chain/get_info" (PDict []).

(** [Net.get_account]. *)
Definition get_account (account_name : pyobj) : M pyobj :=
  _request "/v1/chain/get_account" (PDict [("account_name", account_name)]).

(** The loop of [get_table_by_scope]:
    [for k in list(payload.keys()): if payload[k] is None: del payload[k]]. *)
Definition del_none_keys (payload : dict pyobj) : dict pyobj :=
  fold_left
    (fun p k =>
       match dict_get p k with
       | Some PNone => dict_del p k
       | _ => p
       end)
    (dict_keys payload) payload.

(** [dict(code=code, table=table, ..., show_payer=show_payer)] of
    [get_table_by_scope]. *)
Definition table_by_scope_kwargs
    (code table lower_bound upper_bound limit reverse show_payer : pyobj)
    : dict pyobj :=
  [("code", code); ("table", table); ("lower_bound", lower_bound);
   ("upper_bound", upper_bound); ("limit", limit); ("reverse", reverse);
   ("show_payer", show_payer)].

(** [Net.get_table_by_scope]. *)
Definition get_table_by_scope
    (code table lower_bound upper_bound limit reverse show_payer : pyobj)
    : M pyobj :=
  let payload :=
    table_by_scope_kwargs code table lower_bound upper_bound limit reverse
      show_payer in
  _request "/v1/chain/get_table_by_scope" (PDict (del_none_keys payload)).

(** The [for _ in range(1000): ... else: raise ValueError] loop of
    [get_table_rows], with [n] iterations left. *)
Fixpoint get_table_rows_loop (n : nat) (full : bool)
    (payload : dict pyobj) (rows : list pyobj) : M pyobj :=
  match n with
  | O => raise (ValueError too_many_msg)
  | S n' =>
      data <- _request table_rows_endpoint (PDict payload) ;;
      has_rows <- lift (py_contains "rows" data) ;;
      if negb has_rows then ret data
      else
        v <- lift (py_getitem data "rows") ;;
        new_rows <- lift (py_iter v) ;;
        let rows := (rows ++ new_rows)%list in
        stop <- (if negb full then ret true
                 else more <- lift (py_get data "more") ;;
                      ret (negb (truthy more))) ;;
        if stop then ret (PList rows)
        else
          lower_bound <- lift (py_getitem data "next_key") ;;
          get_table_rows_loop n' full
            (dict_set payload "lower_bound" lower_bound) rows
  end.

(** [dict(code=code, table=table, ..., show_payer=show_payer)]. *)
Definition table_rows_kwargs
    (code table scope json index_position key_type encode_type
     lower_bound upper_bound limit reverse show_payer : pyobj)
    : dict pyobj :=
  [("code", code); ("table", table); ("scope", scope); ("json", json);
   ("index_position", index_position); ("key_type", key_type);
   ("encode_type", encode_type); ("lower_bound", lower_bound);
   ("upper_bound", upper_bound); ("limit", limit); ("reverse", reverse);
   ("show_payer", show_payer)].

(** The payload [get_table_rows] builds before its first request. *)
Definition table_rows_payload
    (code table scope json index_position key_type encode_type
     lower_bound upper_bound limit reverse show_payer : pyobj)
    : dict pyobj :=
  drop_none
    (table_rows_kwargs code table scope json index_position key_type
       encode_type lower_bound upper_bound limit reverse show_payer).

(** [Net.get_table_rows]. *)
Definition get_table_rows
    (code table scope json index_position key_type encode_type
     lower_bound upper_bound limit reverse show_payer : pyobj)
    (full : bool) : M pyobj :=
  get_table_rows_loop 1000 full
    (table_rows_payload code table scope json index_position key_type
       encode_type lower_bound upper_bound limit reverse show_payer)
    [].

(** [Net.__enter__]. *)
Definition __enter__ : M unit :=
  slf <- get_self ;;
  match client slf with
  | None => c <- httpx_Client ;; set_client (Some c)
  | Some _ => ret tt
  end.

(** [Net.__exit__]: [self.client.__exit__(...)], whoever made the client. *)
Definition __exit__ : M unit :=
  slf <- get_self ;;
  match client slf with
  | Some c => client_exit c
  | None => raise AttributeError
  end.

(** [with net: body]: [__exit__] runs on every way out of the body, and as it
    returns [None] an exception of the body is raised again after it. *)
Definition with_net {A} (body : M A) : M A :=
  fun st =>
    match __enter__ st with
    | (Raise e, st1) => (Raise e, st1)
    | (Ok _, st1) =>
        let (r, st2) := body st1 in
        match __exit__ st2 with
        | (Ok _, st3) => (r, st3)
        | (Raise e, st3) => (Raise e, st3)
        end
    end.

(** ** Notions used to state the properties *)

(** The handle [self.client] holds, if any, has not been closed. *)
Definition usable (st : state) : Prop :=
  match client (self st) with
  | Some h => closed st h = false
  | None => True
  end.

(** A scope on the object has been released: it still holds the handle, and
    the handle is closed. *)
Definition released (st : state) : Prop :=
  exists h, client (self st) = Some h /\ closed st h = true.

(** The request [_request endpoint payload] builds on object [slf]. *)
Definition request_of (slf : Net) (endpoint : string) (payload : pyobj)
    : request :=
  {| req_url := urljoin (host slf) endpoint;
     req_json := payload;
     req_headers := dict_update default_headers (headers slf);
     req_auth := auth slf |}.

(** The handle [_request] posts on from [st], and the state it posts in:
    [self.client], or else a fresh [httpx.Client()]. *)
Definition acquire (st : state) : handle * state :=
  match client (self st) with
  | Some c => (c, st)
  | None => (next_handle st, snd (httpx_Client st))
  end.

(** What the transport's [post] does in the call [_request endpoint payload]
    made from [st]: the response it returns or the exception it raises. *)
Definition transport_post (endpoint : string) (payload : pyobj) (st : state)
    : result response :=
  fst (client_post (fst (acquire st)) (request_of (self st) endpoint payload)
         (snd (acquire st))).

(** The state any call [_request endpoint payload] leaves behind. *)
Definition after_request (endpoint : string) (payload : pyobj) (st : state)
    : state :=
  record_event
    (Client_post (fst (acquire st)) (request_of (self st) endpoint payload))
    (snd (acquire st)).

(** How [_request] turns the outcome of [post] into its own. *)
Definition classify (url : string) (payload : pyobj) (r : result response)
    : result pyobj :=
  match r with
  | Raise e =>
      if is_transport_failure e
      then Raise (ConnectionError None url payload (Some e))
      else Raise e
  | Ok resp =>
      if Z.ltb 299 (status_code resp) && negb (Z.eqb (status_code resp) 500)
      then Raise (ConnectionError (Some resp) url payload None)
      else match json_body resp with
           | Some v => Ok v
           | None => Raise JSONDecodeError
           end
  end.

(** *** Pages of the table-read endpoint *)

(** A status [_request] lets through: at most 299, or exactly 500. *)
Definition accepted (resp : response) : bool :=
  Z.leb (status_code resp) 299 || Z.eqb (status_code resp) 500.

Definition page_dict (resp : response) : dict pyobj :=
  match json_body resp with
  | Some (PDict d) => d
  | _ => []
  end.

(** The [rows] sequence of a page. *)
Definition page_rows (resp : response) : list pyobj :=
  match dict_get (page_dict resp) "rows" with
  | Some (PList l) => l
  | _ => []
  end.

(** The continuation token of a page, when it has one. *)
Definition page_next_key (resp : response) : option pyobj :=
  dict_get (page_dict resp) "next_key".

(** The page reports more pages: [more] is present and true. *)
Definition page_more (resp : response) : bool :=
  truthy (default PNone (dict_get (page_dict resp) "more")).

(** An accepted response whose body is an object with a [rows] sequence. *)
Definition rows_page (resp : response) : bool :=
  accepted resp &&
  match json_body resp with
  | Some (PDict d) =>
      match dict_get d "rows" with
      | Some (PList _) => true
      | _ => false
      end
  | _ => false
  end.

(** A page that reports more pages and carries the continuation token. *)
Definition more_page (resp : response) : bool :=
  rows_page resp && page_more resp &&
  (if page_next_key resp is Some _ then true else false).

(** A page that reports no more pages. *)
Definition last_page (resp : response) : bool :=
  rows_page resp && negb (page_more resp).

(** A page that reports more pages but carries no continuation token. *)
Definition more_page_without_key (resp : response) : bool :=
  rows_page resp && page_more resp &&
  (if page_next_key resp is Some _ then false else true).

(** An accepted response whose body is an object without a [rows] key. *)
Definition rowless (resp : response) : bool :=
  accepted resp &&
  match json_body resp with
  | Some (PDict d) => if dict_get d "rows" is Some _ then false else true
  | _ => false
  end.

Definition next_key_of (resp : response) : pyobj :=
  default PNone (page_next_key resp).

(** The payload of the request that follows the given pages, and the payloads
    of the requests that fetched them. *)
Fixpoint payload_after (payload : dict pyobj) (pages : list response)
    : dict pyobj :=
  match pages with
  | [] => payload
  | p :: ps => payload_after (dict_set payload "lower_bound" (next_key_of p)) ps
  end.

Fixpoint payloads_for (payload : dict pyobj) (pages : list response)
    : list (dict pyobj) :=
  match pages with
  | [] => []
  | p :: ps =>
      payload ::
      payloads_for (dict_set payload "lower_bound" (next_key_of p)) ps
  end.

(** The failure kinds of the error taxonomy, as [net.py] raises them:
    [pydantic.ValidationError] (configuration), [exc.ConnectionError],
    [RuntimeError] (use after close), [ValueError] (too many requests). *)
Definition typed_failure (e : exc) : bool :=
  match e with
  | ValidationError _ | ConnectionError _ _ _ _
  | RuntimeError _ | ValueError _ => true
  | _ => false
  end.

(** *** Callers of the request executor *)

(** A block of calls, as the body of a [with] statement: the first exception
    ends the block. *)
Fixpoint call_all (calls : list (string * pyobj)) : M unit :=
  match calls with
  | [] => ret tt
  | (endpoint, payload) :: rest =>
      _ <- _request endpoint payload ;; call_all rest
  end.

(** Calls made one after the other by a caller that looks at each outcome and
    carries on: the state they leave. *)
Fixpoint run_each (calls : list (string * pyobj)) (st : state) : state :=
  match calls with
  | [] => st
  | (endpoint, payload) :: rest =>
      run_each rest (snd (_request endpoint payload st))
  end.

(** The state in which the body of [with net:] starts. *)
Definition entered (st : state) : state := snd (__enter__ st).

(** *** The remaining endpoint methods *)

(** [base64.b64decode], taken from the standard library. *)
Variable b64decode : pyobj -> result (list byte).

(** [Net.abi_bin_to_json]. *)
Definition abi_bin_to_json (account_name action : pyobj) (bytes : list byte)
    : M pyobj :=
  data <- _request "/v1/chain/abi_bin_to_json"
            (PDict [("code", account_name); ("action", action);
                    ("binargs", PStr (bytes_hex bytes))]) ;;
  lift (py_getitem data "args").

(** [Net.abi_json_to_bin]: the response as it is when it has no [binargs],
    else the bytes its [binargs] spell. *)
Definition abi_json_to_bin (account_name action json : pyobj)
    : M (pyobj + list byte) :=
  data <- _request "/v1/chain/abi_json_to_bin"
            (PDict [("code", account_name); ("action", action);
                    ("args", json)]) ;;
  has_binargs <- lift (py_contains "binargs" data) ;;
  if negb has_binargs then ret (inl data)
  else
    hex_ <- lift (py_getitem data "binargs") ;;
    bytes_ <- lift (bytes_fromhex hex_) ;;
    ret (inr bytes_).

(** [Net.get_raw_code_and_abi]. *)
Definition get_raw_code_and_abi (account_name : pyobj) : M (dict pyval) :=
  data <- _request "/v1/chain/get_raw_code_and_abi"
            (PDict [("account_name", account_name)]) ;;
  abi <- lift (py_getitem data "abi") ;;
  abi_bytes <- lift (b64decode abi) ;;
  wasm <- lift (py_getitem data "wasm") ;;
  wasm_bytes <- lift (b64decode wasm) ;;
  match data with
  | PDict d =>
      ret (dict_set
             (dict_set (map (fun kv => (fst kv, Obj (snd kv))) d)
                "abi" (Bytes abi_bytes))
             "wasm" (Bytes wasm_bytes))
  | _ => raise TypeError
  end.

(** [Net.get_abi]. *)
Definition get_abi (account_name : pyobj) : M pyobj :=
  data <- _request "/v1/chain/get_abi"
            (PDict [("account_name", account_name)]) ;;
  n <- lift (py_len data) ;;
  if Nat.eqb n 1 then ret PNone else ret data.

(** [Net.get_block]. *)
Definition get_block (block_num_or_id : pyobj) : M pyobj :=
  _request "/v1/chain/get_block"
    (PDict [("block_num_or_id", block_num_or_id)]).

(** [Net.get_block_info]. *)
Definition get_block_info (block_num : pyobj) : M pyobj :=
  _request "/v1/chain/get_block_info" (PDict [("block_num", block_num)]).

(** ** The request executor, step by step *)

Lemma posts_app (t1 t2 : list event) :
  posts (t1 ++ t2)%list = (posts t1 ++ posts t2)%list.
Proof. unfold posts. apply flat_map_app. Qed.

Lemma creations_app (t1 t2 : list event) :
  creations (t1 ++ t2)%list = (creations t1 ++ creations t2)%list.
Proof. unfold creations. apply flat_map_app. Qed.

Lemma exits_app (t1 t2 : list event) :
  exits (t1 ++ t2)%list = (exits t1 ++ exits t2)%list.
Proof. unfold exits. apply flat_map_app. Qed.

Lemma request_unfold (endpoint : string) (payload : pyobj) (st : state) :
  _request endpoint payload st =
  (classify (urljoin (host (self st)) endpoint) payload
     (transport_post endpoint payload st),
   after_request endpoint payload st).
Proof.
  unfold _request, transport_post, after_request, acquire, request_of.
  unfold bind at 1. unfold get_self at 1. cbv beta iota.
  destruct (client (self st)) as [c|] eqn:Hc.
  - unfold bind, ret, try_except, client_post; simpl.
    destruct (closed st c); simpl.
    + reflexivity.
    + destruct (server _ _) as [resp|e]; simpl.
      * destruct (_ && _); [reflexivity|].
        unfold resp_json. destruct (json_body resp); reflexivity.
      * destruct (is_transport_failure e); reflexivity.
  - unfold bind, httpx_Client, try_except, client_post; simpl.
    rewrite Nat.eqb_refl; simpl.
    destruct (server _ _) as [resp|e]; simpl.
    + destruct (_ && _); [reflexivity|].
      unfold resp_json. destruct (json_body resp); reflexivity.
    + destruct (is_transport_failure e); reflexivity.
Qed.

Lemma after_request_self endpoint payload st :
  self (after_request endpoint payload st) = self st.
Proof. unfold after_request, acquire. destruct (client (self st)); reflexivity. Qed.

Lemma after_request_posts endpoint payload st :
  posts (trace (after_request endpoint payload st)) =
  (posts (trace st) ++ [request_of (self st) endpoint payload])%list.
Proof.
  unfold after_request, acquire.
  destruct (client (self st)); simpl; rewrite !posts_app; simpl;
    rewrite ?app_nil_r; reflexivity.
Qed.

Lemma after_request_exits endpoint payload st :
  exits (trace (after_request endpoint payload st)) = exits (trace st).
Proof.
  unfold after_request, acquire.
  destruct (client (self st)); simpl; rewrite !exits_app; simpl;
    rewrite ?app_nil_r; reflexivity.
Qed.

Lemma after_request_usable endpoint payload st :
  usable st -> usable (after_request endpoint payload st).
Proof.
  unfold usable. rewrite after_request_self.
  unfold after_request, acquire.
  destruct (client (self st)) as [c|] eqn:Hc; simpl; auto.
Qed.

Lemma after_request_released endpoint payload st :
  released st -> released (after_request endpoint payload st).
Proof.
  intros [h [Hc Hh]]. exists h. rewrite after_request_self. split; [exact Hc|].
  unfold after_request, acquire. rewrite Hc. exact Hh.
Qed.

Lemma transport_post_usable endpoint payload st :
  usable st ->
  transport_post endpoint payload st =
  server (length (posts (trace st))) (request_of (self st) endpoint payload).
Proof.
  unfold usable, transport_post, acquire, client_post.
  destruct (client (self st)) as [c|]; simpl.
  - intros ->. reflexivity.
  - intros _. rewrite Nat.eqb_refl. rewrite posts_app; simpl.
    rewrite app_nil_r. reflexivity.
Qed.

Lemma transport_post_released endpoint payload st :
  released st ->
  transport_post endpoint payload st = Raise (RuntimeError closed_msg).
Proof.
  intros [h [Hc Hh]]. unfold transport_post, acquire, client_post.
  rewrite Hc; simpl. rewrite Hh. reflexivity.
Qed.

(** ** One iteration of the pagination loop *)

Lemma request_accepted endpoint payload st resp v :
  usable st ->
  server (length (posts (trace st))) (request_of (self st) endpoint payload)
    = Ok resp ->
  accepted resp = true ->
  json_body resp = Some v ->
  _request endpoint payload st = (Ok v, after_request endpoint payload st).
Proof.
  intros Hu Hs Ha Hb. rewrite request_unfold, transport_post_usable by exact Hu.
  rewrite Hs. unfold classify, accepted in *. rewrite Hb.
  destruct (Z.ltb_spec 299 (status_code resp)); simpl; [|reflexivity].
  destruct (Z.eqb_spec (status_code resp) 500); simpl; [reflexivity|].
  destruct (Z.leb_spec (status_code resp) 299); simpl in Ha; [lia|discriminate].
Qed.

Lemma rows_page_inv resp :
  rows_page resp = true ->
  accepted resp = true /\
  exists d, json_body resp = Some (PDict d) /\
            dict_get d "rows" = Some (PList (page_rows resp)).
Proof.
  unfold rows_page, page_rows, page_dict.
  destruct (accepted resp); simpl; [|discriminate].
  destruct (json_body resp) as [[| | | | | |d]|]; try discriminate.
  destruct (dict_get d "rows") as [[| | | | |l|]|] eqn:Hr; try discriminate.
  intros _. split; [reflexivity|]. exists d. rewrite Hr. auto.
Qed.

Lemma step_more n payload rows st resp :
  usable st ->
  server (length (posts (trace st)))
    (request_of (self st) table_rows_endpoint (PDict payload)) = Ok resp ->
  more_page resp = true ->
  get_table_rows_loop (S n) true payload rows st =
  get_table_rows_loop n true
    (dict_set payload "lower_bound" (next_key_of resp))
    (rows ++ page_rows resp)%list
    (after_request table_rows_endpoint (PDict payload) st).
Proof.
  intros Hu Hs Hm. unfold more_page in Hm.
  apply andb_prop in Hm as [Hm Hk]. apply andb_prop in Hm as [Hr Hmore].
  destruct (rows_page_inv _ Hr) as [Ha [d [Hb Hrows]]].
  cbn [get_table_rows_loop]. unfold bind at 1.
  rewrite (request_accepted _ _ _ _ _ Hu Hs Ha Hb).
  unfold next_key_of, page_next_key, page_more, page_dict in *.
  rewrite Hb in *.
  unfold bind, lift, ret; simpl. rewrite Hrows; simpl.
  rewrite Hmore; simpl.
  destruct (dict_get d "next_key"); [reflexivity|discriminate].
Qed.

Lemma step_last n full payload rows st resp :
  usable st ->
  server (length (posts (trace st)))
    (request_of (self st) table_rows_endpoint (PDict payload)) = Ok resp ->
  rows_page resp = true ->
  full = false \/ page_more resp = false ->
  get_table_rows_loop (S n) full payload rows st =
  (Ok (PList (rows ++ page_rows resp)%list),
   after_request table_rows_endpoint (PDict payload) st).
Proof.
  intros Hu Hs Hr Hstop.
  destruct (rows_page_inv _ Hr) as [Ha [d [Hb Hrows]]].
  cbn [get_table_rows_loop]. unfold bind at 1.
  rewrite (request_accepted _ _ _ _ _ Hu Hs Ha Hb).
  unfold page_more, page_dict in *. rewrite Hb in *.
  unfold bind, lift, ret; simpl. rewrite Hrows; simpl.
  destruct full; simpl; [|reflexivity].
  destruct Hstop as [Hf|Hm]; [discriminate|]. rewrite Hm. reflexivity.
Qed.

Lemma step_rowless n full payload rows st resp :
  usable st ->
  server (length (posts (trace st)))
    (request_of (self st) table_rows_endpoint (PDict payload)) = Ok resp ->
  rowless resp = true ->
  get_table_rows_loop (S n) full payload rows st =
  (Ok (PDict (page_dict resp)),
   after_request table_rows_endpoint (PDict payload) st).
Proof.
  intros Hu Hs Hr. unfold rowless in Hr. apply andb_prop in Hr as [Ha Hr].
  unfold page_dict.
  destruct (json_body resp) as [[| | | | | |d]|] eqn:Hb; try discriminate.
  cbn [get_table_rows_loop]. unfold bind at 1.
  rewrite (request_accepted _ _ _ _ _ Hu Hs Ha Hb).
  unfold bind, lift, ret; simpl.
  destruct (dict_get d "rows"); [discriminate|reflexivity].
Qed.

Lemma step_without_key n payload rows st resp :
  usable st ->
  server (length (posts (trace st)))
    (request_of (self st) table_rows_endpoint (PDict payload)) = Ok resp ->
  more_page_without_key resp = true ->
  get_table_rows_loop (S n) true payload rows st =
  (Raise (KeyError "next_key"),
   after_request table_rows_endpoint (PDict payload) st).
Proof.
  intros Hu Hs Hm. unfold more_page_without_key in Hm.
  apply andb_prop in Hm as [Hm Hk]. apply andb_prop in Hm as [Hr Hmore].
  destruct (rows_page_inv _ Hr) as [Ha [d [Hb Hrows]]].
  cbn [get_table_rows_loop]. unfold bind at 1.
  rewrite (request_accepted _ _ _ _ _ Hu Hs Ha Hb).
  unfold page_next_key, page_more, page_dict in *.
  rewrite Hb in *.
  unfold bind, lift, ret; simpl. rewrite Hrows; simpl.
  rewrite Hmore; simpl.
  destruct (dict_get d "next_key"); [discriminate|reflexivity].
Qed.

(** ** Runs of the pagination loop *)

Lemma dict_get_set_eq {V} (d : dict V) (k : string) (v : V) :
  dict_get (dict_set d k v) k = Some v.
Proof.
  induction d as [|[k' v'] d IH]; simpl.
  - rewrite String.eqb_refl. reflexivity.
  - destruct (String.eqb k k') eqn:E; simpl.
    + rewrite String.eqb_refl. reflexivity.
    + rewrite E. exact IH.
Qed.

Lemma lookup_map {A B} (f : A -> B) (l : list A) (i : nat) :
  map f l !! i = option_map f (l !! i).
Proof.
  revert i. induction l as [|a l IH]; intros [|i]; simpl; auto.
Qed.

Lemma more_page_next_key resp :
  more_page resp = true -> page_next_key resp = Some (next_key_of resp).
Proof.
  unfold more_page, next_key_of. intros H. apply andb_prop in H as [_ H].
  destruct (page_next_key resp); [reflexivity|discriminate].
Qed.

Lemma payloads_head payload pages :
  head (payloads_for payload pages ++ [payload_after payload pages])%list
  = Some payload.
Proof. destruct pages; reflexivity. Qed.

Lemma payloads_length payload pages :
  length (payloads_for payload pages) = length pages.
Proof.
  revert payload. induction pages as [|p ps IH]; intros payload; simpl;
    [reflexivity|]. rewrite IH. reflexivity.
Qed.

Lemma payloads_lower_bound pages : forall payload i p d,
  pages !! i = Some p ->
  (payloads_for payload pages ++ [payload_after payload pages])%list !! S i
    = Some d ->
  dict_get d "lower_bound" = Some (next_key_of p).
Proof.
  induction pages as [|q qs IH]; intros payload i p d Hp Hd.
  - destruct i; discriminate.
  - simpl in Hd. destruct i as [|i]; simpl in Hp.
    + injection Hp as ->.
      rewrite <- head_lookup, payloads_head in Hd. injection Hd as <-.
      apply dict_get_set_eq.
    + eapply IH; eassumption.
Qed.

Lemma loop_prefix pre : forall n payload rows st,
  usable st ->
  Forall (fun p => more_page p = true) pre ->
  (forall i p r, pre !! i = Some p ->
                 server (length (posts (trace st)) + i) r = Ok p) ->
  exists st',
    get_table_rows_loop (length pre + n) true payload rows st =
    get_table_rows_loop n true (payload_after payload pre)
      (rows ++ concat (map page_rows pre))%list st'
    /\ usable st' /\ self st' = self st
    /\ posts (trace st') =
       (posts (trace st) ++
        map (fun d => request_of (self st) table_rows_endpoint (PDict d))
          (payloads_for payload pre))%list.
Proof.
  induction pre as [|p pre IH]; intros n payload rows st Hu Hall Hsrv.
  - exists st. simpl. rewrite !app_nil_r. auto.
  - inversion Hall as [|? ? Hp Hrest]; subst.
    assert (H0 : server (length (posts (trace st)))
                   (request_of (self st) table_rows_endpoint (PDict payload))
                 = Ok p).
    { rewrite <- (Nat.add_0_r (length _)). apply Hsrv. reflexivity. }
    cbn [length Nat.add]. rewrite (step_more _ _ _ _ _ Hu H0 Hp).
    destruct (IH n (dict_set payload "lower_bound" (next_key_of p))
                (rows ++ page_rows p)%list
                (after_request table_rows_endpoint (PDict payload) st))
      as [st' [Heq [Hu' [Hself Hposts]]]].
    + apply after_request_usable, Hu.
    + exact Hrest.
    + intros i q r Hq. rewrite after_request_posts, length_app. simpl.
      replace (length (posts (trace st)) + 1 + i)%nat
        with (length (posts (trace st)) + S i)%nat by lia.
      apply Hsrv. exact Hq.
    + exists st'. rewrite Heq. simpl. rewrite <- !app_assoc.
      split; [reflexivity|]. split; [exact Hu'|].
      rewrite Hself, after_request_self. split; [reflexivity|].
      rewrite Hposts, after_request_posts, after_request_self.
      rewrite <- app_assoc. reflexivity.
Qed.

(** The loop only adds posts, never more than it has iterations, and the
    first one carries the payload it was started with. *)
Lemma loop_trace n : forall full payload rows st,
  exists rest,
    posts (trace (snd (get_table_rows_loop n full payload rows st)))
      = (posts (trace st) ++ rest)%list
    /\ (length rest <= n)%nat
    /\ (n <> O ->
        head rest =
        Some (request_of (self st) table_rows_endpoint (PDict payload))).
Proof.
  induction n as [|n IH]; intros full payload rows st.
  - exists []. cbn. rewrite app_nil_r. split; [reflexivity|]. split; [lia|].
    intros H; contradiction H; reflexivity.
  - cbn [get_table_rows_loop]. unfold bind at 1. rewrite request_unfold.
    pose proof (after_request_posts table_rows_endpoint (PDict payload) st)
      as Hone.
    assert (Hleaf : exists rest,
      posts (trace (after_request table_rows_endpoint (PDict payload) st))
        = (posts (trace st) ++ rest)%list
      /\ (length rest <= S n)%nat
      /\ (S n <> O ->
          head rest =
          Some (request_of (self st) table_rows_endpoint (PDict payload)))).
    { eexists. split; [exact Hone|]. split; [simpl; lia|reflexivity]. }
    destruct (classify _ _ _) as [data|e]; [|exact Hleaf].
    unfold bind at 1, lift at 1.
    destruct (py_contains "rows" data) as [b|e]; [|exact Hleaf].
    destruct b; cbn [negb]; [|exact Hleaf].
    unfold bind at 1, lift at 1.
    destruct (py_getitem data "rows") as [v|e]; [|exact Hleaf].
    unfold bind at 1, lift at 1.
    destruct (py_iter v) as [new_rows|e]; [|exact Hleaf].
    unfold bind at 1.
    destruct full; cbn [negb].
    + unfold bind at 1, lift at 1.
      destruct (py_get data "more") as [more|e]; [|exact Hleaf].
      unfold ret at 1. cbv iota beta.
      destruct (negb (truthy more)); [exact Hleaf|].
      unfold bind at 1, lift at 1.
      destruct (py_getitem data "next_key") as [lb|e]; [|exact Hleaf].
      destruct (IH true (dict_set payload "lower_bound" lb)
                  (rows ++ new_rows)%list
                  (after_request table_rows_endpoint (PDict payload) st))
        as [rest [Hrest [Hlen _]]].
      exists (request_of (self st) table_rows_endpoint (PDict payload) :: rest).
      rewrite Hrest, Hone, <- app_assoc. split; [reflexivity|].
      split; [simpl; lia|reflexivity].
    + exact Hleaf.
Qed.

(** Without [full], the loop posts exactly once, whatever comes back. *)
Lemma loop_not_full n payload rows st :
  posts (trace (snd (get_table_rows_loop (S n) false payload rows st)))
  = (posts (trace st) ++
     [request_of (self st) table_rows_endpoint (PDict payload)])%list.
Proof.
  cbn [get_table_rows_loop]. unfold bind at 1. rewrite request_unfold.
  rewrite <- after_request_posts.
  destruct (classify _ _ _) as [data|e]; [|reflexivity].
  unfold bind at 1, lift at 1.
  destruct (py_contains "rows" data) as [b|e]; [|reflexivity].
  destruct b; cbn [negb]; [|reflexivity].
  unfold bind at 1, lift at 1.
  destruct (py_getitem data "rows") as [v|e]; [|reflexivity].
  unfold bind at 1, lift at 1.
  destruct (py_iter v) as [new_rows|e]; reflexivity.
Qed.

Lemma loop_endless n : forall payload rows st,
  usable st ->
  (forall i r, (length (posts (trace st)) <= i)%nat ->
               exists p, server i r = Ok p /\ more_page p = true) ->
  exists st',
    get_table_rows_loop n true payload rows st
      = (Raise (ValueError too_many_msg), st')
    /\ length (posts (trace st')) = (length (posts (trace st)) + n)%nat.
Proof.
  induction n as [|n IH]; intros payload rows st Hu Hsrv.
  - exists st. split; [reflexivity|lia].
  - destruct (Hsrv (length (posts (trace st)))
                (request_of (self st) table_rows_endpoint (PDict payload)))
      as [p [Hp Hm]]; [lia|].
    rewrite (step_more _ _ _ _ _ Hu Hp Hm).
    assert (Hlen : length (posts (trace
               (after_request table_rows_endpoint (PDict payload) st)))
             = S (length (posts (trace st)))).
    { rewrite after_request_posts, length_app. simpl. lia. }
    destruct (IH (dict_set payload "lower_bound" (next_key_of p))
                (rows ++ page_rows p)%list
                (after_request table_rows_endpoint (PDict payload) st))
      as [st' [Heq Hn]].
    + apply after_request_usable, Hu.
    + intros i r Hi. apply Hsrv. lia.
    + exists st'. split; [exact Heq|]. lia.
Qed.

(** ** The paginator: [get_table_rows] *)

Section TableRows.

Variables code table scope json index_position key_type encode_type
  lower_bound upper_bound limit reverse show_payer : pyobj.

Local Abbreviation first_payload :=
  (table_rows_payload code table scope json index_position key_type
     encode_type lower_bound upper_bound limit reverse show_payer).

Local Abbreviation read :=
  (get_table_rows code table scope json index_position key_type encode_type
     lower_bound upper_bound limit reverse show_payer).

Lemma read_prefix (pre : list response) (st : state) :
  usable st ->
  Forall (fun p => more_page p = true) pre ->
  (length pre < 1000)%nat ->
  (forall i p r, pre !! i = Some p ->
                 server (length (posts (trace st)) + i) r = Ok p) ->
  exists st',
    read true st =
    get_table_rows_loop (S (999 - length pre)) true
      (payload_after first_payload pre) (concat (map page_rows pre)) st'
    /\ usable st' /\ self st' = self st
    /\ posts (trace st') =
       (posts (trace st) ++
        map (fun d => request_of (self st) table_rows_endpoint (PDict d))
          (payloads_for first_payload pre))%list.
Proof.
  intros Hu Hall Hlen Hsrv.
  destruct (loop_prefix pre (S (999 - length pre)) first_payload [] st
              Hu Hall Hsrv) as [st' [Heq Hrest]].
  exists st'. split; [|exact Hrest].
  cbn [app] in Heq. rewrite <- Heq. unfold get_table_rows.
  replace (length pre + S (999 - length pre))%nat with 1000%nat by lia.
  reflexivity.
Qed.

(** C2. A full read ([full=True]) of a finite page sequence [pre ++ [last]]
    of at most 1000 pages, in which every page of [pre] has a [rows]
    sequence, reports more pages and carries a [next_key], and [last] has a
    [rows] sequence and reports no more pages, returns the concatenation of
    the pages' rows in page order, posts exactly one request per page, the
    first with the payload built from the arguments, and each later request
    carries the previous page's [next_key] as its [lower_bound]. *)
Theorem full_read_concatenates_pages
    (pre : list response) (last : response) (st : state) :
  usable st ->
  Forall (fun p => more_page p = true) pre ->
  last_page last = true ->
  (length pre < 1000)%nat ->
  (forall i p r, (pre ++ [last])%list !! i = Some p ->
                 server (length (posts (trace st)) + i) r = Ok p) ->
  exists st' reqs,
    read true st
      = (Ok (PList (concat (map page_rows (pre ++ [last])%list))), st')
    /\ posts (trace st') = (posts (trace st) ++ reqs)%list
    /\ length reqs = length (pre ++ [last])%list
    /\ head reqs =
       Some (request_of (self st) table_rows_endpoint (PDict first_payload))
    /\ (forall i p r,
          pre !! i = Some p -> reqs !! S i = Some r ->
          exists d tok,
            req_json r = PDict d /\ page_next_key p = Some tok /\
            dict_get d "lower_bound" = Some tok).
Proof.
  intros Hu Hall Hlast Hlen Hsrv.
  destruct (read_prefix pre st Hu Hall Hlen) as [st1 [Heq [Hu1 [Hs1 Hp1]]]].
  { intros i p r Hp. apply Hsrv. apply lookup_app_l_Some. exact Hp. }
  unfold last_page in Hlast. apply andb_prop in Hlast as [Hrows Hnomore].
  apply negb_true_iff in Hnomore.
  assert (Hsrv1 : server (length (posts (trace st1)))
                    (request_of (self st1) table_rows_endpoint
                       (PDict (payload_after first_payload pre))) = Ok last).
  { rewrite Hp1, length_app, length_map, payloads_length.
    apply Hsrv. rewrite lookup_app_r by lia.
    rewrite Nat.sub_diag. reflexivity. }
  rewrite (step_last _ _ _ _ _ _ Hu1 Hsrv1 Hrows (or_intror Hnomore)) in Heq.
  exists (after_request table_rows_endpoint
            (PDict (payload_after first_payload pre)) st1).
  exists (map (fun d => request_of (self st) table_rows_endpoint (PDict d))
            (payloads_for first_payload pre ++
             [payload_after first_payload pre])%list).
  split; [|split; [|split; [|split]]].
  - rewrite Heq, map_app, concat_app. simpl. rewrite app_nil_r. reflexivity.
  - rewrite after_request_posts, Hp1, Hs1, map_app, <- app_assoc. reflexivity.
  - rewrite length_map, !length_app, payloads_length. reflexivity.
  - destruct pre; reflexivity.
  - intros i p r Hp Hr.
    rewrite lookup_map in Hr.
    destruct (_ !! S i) as [d|] eqn:Hd; [|discriminate].
    simpl in Hr. injection Hr as <-. exists d, (next_key_of p).
    split; [reflexivity|]. split.
    + apply more_page_next_key.
      rewrite Forall_forall in Hall. apply Hall.
      eapply list_elem_of_lookup_2. exact Hp.
    + eapply payloads_lower_bound; eassumption.
Qed.

(** C3. The pagination loop never posts more than 1000 requests, whatever
    the remote node answers; and when every answer has a [rows] sequence,
    reports more pages and carries a [next_key], a full read posts exactly
    1000 requests and then raises [ValueError("Too many requests (>1000) for
    table")]. *)
Theorem endless_pages_hit_the_cap (st : state) :
  (forall full,
     (length (posts (trace (snd (read full st))))
      <= length (posts (trace st)) + 1000)%nat)
  /\ (usable st ->
      (forall i r, (length (posts (trace st)) <= i)%nat ->
                   exists p, server i r = Ok p /\ more_page p = true) ->
      exists st',
        read true st = (Raise (ValueError too_many_msg), st')
        /\ length (posts (trace st'))
           = (length (posts (trace st)) + 1000)%nat).
Proof.
  split.
  - intros full. unfold get_table_rows.
    destruct (loop_trace 1000 full first_payload [] st) as [rest [-> [Hl _]]].
    rewrite length_app. lia.
  - intros Hu Hsrv. apply loop_endless; assumption.
Qed.

(** C7. In a full read, when the pages of [pre] (each with [rows], more
    pages and a [next_key]) are followed, within the 1000 requests, by an
    accepted response whose body has no [rows] key, the call returns that
    body unchanged: none of the rows of [pre] are in the result. *)
Theorem full_read_returns_rowless_body
    (pre : list response) (bad : response) (st : state) :
  usable st ->
  Forall (fun p => more_page p = true) pre ->
  rowless bad = true ->
  (length pre < 1000)%nat ->
  (forall i p r, (pre ++ [bad])%list !! i = Some p ->
                 server (length (posts (trace st)) + i) r = Ok p) ->
  exists d,
    json_body bad = Some (PDict d) /\ dict_get d "rows" = None /\
    fst (read true st) = Ok (PDict d).
Proof.
  intros Hu Hall Hbad Hlen Hsrv.
  destruct (read_prefix pre st Hu Hall Hlen) as [st1 [Heq [Hu1 [Hs1 Hp1]]]].
  { intros i p r Hp. apply Hsrv. apply lookup_app_l_Some. exact Hp. }
  assert (Hsrv1 : server (length (posts (trace st1)))
                    (request_of (self st1) table_rows_endpoint
                       (PDict (payload_after first_payload pre))) = Ok bad).
  { rewrite Hp1, length_app, length_map, payloads_length.
    apply Hsrv. rewrite lookup_app_r by lia.
    rewrite Nat.sub_diag. reflexivity. }
  rewrite (step_rowless _ _ _ _ _ _ Hu1 Hsrv1 Hbad) in Heq.
  rewrite Heq. unfold rowless in Hbad. apply andb_prop in Hbad as [_ Hbad].
  unfold page_dict.
  destruct (json_body bad) as [[| | | | | |d]|]; try discriminate.
  exists d. split; [reflexivity|]. split; [|reflexivity].
  destruct (dict_get d "rows"); [discriminate|reflexivity].
Qed.

(** C8. With [full=False], [get_table_rows] makes exactly one call of the
    request executor - one [post], with the payload built from the arguments
    - whatever the state and whatever the remote node answers, a [more] flag
    included. *)
Theorem not_full_single_request (st : state) :
  posts (trace (snd (read false st))) =
  (posts (trace st) ++
   [request_of (self st) table_rows_endpoint (PDict first_payload)])%list.
Proof.
  unfold get_table_rows. change 1000%nat with (S 999).
  apply loop_not_full.
Qed.

(** C10. In a full read, when the pages of [pre] are followed, within the
    1000 requests, by an accepted response that has a [rows] sequence and a
    true [more] but no [next_key], the call raises [KeyError('next_key')],
    which is none of the typed failure kinds; no rows are returned. *)
Theorem full_read_missing_next_key
    (pre : list response) (bad : response) (st : state) :
  usable st ->
  Forall (fun p => more_page p = true) pre ->
  more_page_without_key bad = true ->
  (length pre < 1000)%nat ->
  (forall i p r, (pre ++ [bad])%list !! i = Some p ->
                 server (length (posts (trace st)) + i) r = Ok p) ->
  fst (read true st) = Raise (KeyError "next_key")
  /\ typed_failure (KeyError "next_key") = false.
Proof.
  intros Hu Hall Hbad Hlen Hsrv.
  destruct (read_prefix pre st Hu Hall Hlen) as [st1 [Heq [Hu1 [Hs1 Hp1]]]].
  { intros i p r Hp. apply Hsrv. apply lookup_app_l_Some. exact Hp. }
  assert (Hsrv1 : server (length (posts (trace st1)))
                    (request_of (self st1) table_rows_endpoint
                       (PDict (payload_after first_payload pre))) = Ok bad).
  { rewrite Hp1, length_app, length_map, payloads_length.
    apply Hsrv. rewrite lookup_app_r by lia.
    rewrite Nat.sub_diag. reflexivity. }
  rewrite (step_without_key _ _ _ _ _ Hu1 Hsrv1 Hbad) in Heq.
  rewrite Heq. split; reflexivity.
Qed.

End TableRows.

(** ** The request executor: [_request] *)

(** C1. In every call of [_request]: when the transport's [post] raises a
    timeout, network or write error (an instance of [TimeoutException],
    [NetworkError] or [WriteError]), the call raises [ConnectionError] with
    that error as [error] and no response; when [post] returns a response
    with a status in (299, 500) or above 500, the call raises
    [ConnectionError] carrying the response; when the status is 500 or at
    most 299 and the body decodes, the decoded body is returned; and in all
    these cases a failure of the call is a [ConnectionError]. *)
Theorem request_outcome_classification
    (endpoint : string) (payload : pyobj) (st : state) :
  (forall c msg,
     transport_post endpoint payload st = Raise (Httpx c msg) ->
     issubclass c TimeoutException = true \/
     issubclass c NetworkError = true \/
     issubclass c WriteError = true ->
     fst (_request endpoint payload st) =
     Raise (ConnectionError None (urljoin (host (self st)) endpoint) payload
              (Some (Httpx c msg))))
  /\ (forall resp,
        transport_post endpoint payload st = Ok resp ->
        299 < status_code resp < 500 \/ 500 < status_code resp ->
        fst (_request endpoint payload st) =
        Raise (ConnectionError (Some resp)
                 (urljoin (host (self st)) endpoint) payload None))
  /\ (forall resp v,
        transport_post endpoint payload st = Ok resp ->
        status_code resp = 500 \/ status_code resp <= 299 ->
        json_body resp = Some v ->
        fst (_request endpoint payload st) = Ok v)
  /\ (forall e',
        fst (_request endpoint payload st) = Raise e' ->
        (exists e, transport_post endpoint payload st = Raise e /\
                   is_transport_failure e = true) \/
        (exists resp v, transport_post endpoint payload st = Ok resp /\
                        json_body resp = Some v) ->
        exists r p c,
          e' = ConnectionError r (urljoin (host (self st)) endpoint) p c).
Proof.
  rewrite request_unfold. cbn [fst].
  split; [|split; [|split]].
  - intros c msg -> Hc. unfold classify, is_transport_failure.
    destruct Hc as [->|[->| ->]]; rewrite ?orb_true_r; reflexivity.
  - intros resp -> Hs. unfold classify.
    destruct (Z.ltb_spec 299 (status_code resp)); [|lia].
    destruct (Z.eqb_spec (status_code resp) 500); [lia|]. reflexivity.
  - intros resp v -> Hs Hb. unfold classify. rewrite Hb.
    destruct (Z.ltb_spec 299 (status_code resp)); [|reflexivity].
    destruct (Z.eqb_spec (status_code resp) 500); [reflexivity|lia].
  - intros e' He' [[e [Hp Hf]]|[resp [v [Hp Hb]]]];
      rewrite Hp in He'; unfold classify in He'.
    + rewrite Hf in He'. injection He' as <-. eauto.
    + rewrite Hb in He'.
      destruct (_ && _); [|discriminate]. injection He' as <-. eauto.
Qed.

(** ** Payload filtering *)

Lemma dict_get_drop_none_absent (d : dict pyobj) (k : string) :
  dict_get d k = None -> dict_get (drop_none d) k = None.
Proof.
  induction d as [|[k' v] d IH]; simpl; [reflexivity|].
  destruct (String.eqb k k') eqn:E; [discriminate|]. intros H.
  destruct (is_None v); simpl; [|rewrite E]; auto.
Qed.

Lemma dict_get_notin {V} (d : dict V) (k : string) :
  ~ In k (dict_keys d) -> dict_get d k = None.
Proof.
  induction d as [|[k' v] d IH]; simpl; [reflexivity|]. intros H.
  destruct (String.eqb_spec k k') as [->|Hne].
  - exfalso. apply H. left. reflexivity.
  - apply IH. intros Hin. apply H. right. exact Hin.
Qed.

(** On a dict (distinct keys) the comprehension removes exactly the keys
    bound to [None] and keeps every other binding as it is. *)
Lemma drop_none_get (d : dict pyobj) (k : string) :
  List.NoDup (dict_keys d) ->
  dict_get (drop_none d) k =
  match dict_get d k with
  | Some PNone => None
  | o => o
  end.
Proof.
  induction d as [|[k' v] d IH]; simpl; [reflexivity|].
  intros Hnd. inversion Hnd as [|? ? Hnotin Hnd']; subst.
  destruct (String.eqb_spec k k') as [->|Hne].
  - destruct v; simpl; rewrite ?String.eqb_refl; try reflexivity.
    apply dict_get_drop_none_absent, dict_get_notin, Hnotin.
  - destruct (is_None v); simpl.
    + apply IH, Hnd'.
    + apply String.eqb_neq in Hne. rewrite Hne. apply IH, Hnd'.
Qed.

Lemma dict_get_app_notin {V} (pre d : dict V) (k : string) :
  ~ In k (dict_keys pre) -> dict_get (pre ++ d)%list k = dict_get d k.
Proof.
  induction pre as [|[k' v] pre IH]; simpl; [reflexivity|]. intros H.
  destruct (String.eqb_spec k k') as [->|Hne].
  - exfalso. apply H. left. reflexivity.
  - apply IH. intros Hin. apply H. right. exact Hin.
Qed.

Lemma dict_del_app_notin {V} (pre d : dict V) (k : string) :
  ~ In k (dict_keys pre) ->
  dict_del (pre ++ d)%list k = (pre ++ dict_del d k)%list.
Proof.
  induction pre as [|[k' v] pre IH]; simpl; [reflexivity|]. intros H.
  destruct (String.eqb_spec k k') as [->|Hne].
  - exfalso. apply H. left. reflexivity.
  - f_equal. apply IH. intros Hin. apply H. right. exact Hin.
Qed.

(** The deletion loop of [get_table_by_scope], part of the way through. *)
Lemma del_none_fold (rest : dict pyobj) : forall pre : dict pyobj,
  List.NoDup (dict_keys (pre ++ rest)%list) ->
  fold_left
    (fun p k =>
       match dict_get p k with
       | Some PNone => dict_del p k
       | _ => p
       end)
    (dict_keys rest) (pre ++ rest)%list
  = (pre ++ drop_none rest)%list.
Proof.
  induction rest as [|[k v] rest IH]; intros pre Hnd; [reflexivity|].
  unfold dict_keys in Hnd. rewrite map_app in Hnd. simpl in Hnd.
  destruct (NoDup_remove _ _ _ Hnd) as [Hnd' Hnotin].
  assert (Hpre : ~ In k (dict_keys pre)).
  { intros Hin. apply Hnotin. apply in_or_app. left. exact Hin. }
  change (dict_keys ((k, v) :: rest)) with (k :: dict_keys rest).
  cbn [fold_left].
  rewrite (dict_get_app_notin pre _ k Hpre). cbn [dict_get].
  rewrite String.eqb_refl.
  assert (Hkeep : is_None v = false ->
    fold_left
      (fun p k0 =>
         match dict_get p k0 with
         | Some PNone => dict_del p k0
         | _ => p
         end)
      (dict_keys rest) (pre ++ (k, v) :: rest)%list
    = (pre ++ drop_none ((k, v) :: rest))%list).
  { intros Hv. unfold drop_none. cbn [List.filter snd]. rewrite Hv. cbn [negb].
    change (pre ++ (k, v) :: rest)%list
      with (pre ++ [(k, v)] ++ rest)%list.
    rewrite app_assoc. rewrite (IH (pre ++ [(k, v)])%list).
    - rewrite <- app_assoc. reflexivity.
    - unfold dict_keys. rewrite !map_app. simpl.
      rewrite <- app_assoc. exact Hnd. }
  destruct v; try (apply Hkeep; reflexivity).
  rewrite (dict_del_app_notin pre _ k Hpre). cbn [dict_del].
  rewrite String.eqb_refl. apply IH.
  unfold dict_keys. rewrite map_app. exact Hnd'.
Qed.

(** On a dict the deletion loop and the comprehension agree. *)
Lemma del_none_keys_drop_none (d : dict pyobj) :
  List.NoDup (dict_keys d) -> del_none_keys d = drop_none d.
Proof.
  intros Hnd. apply (del_none_fold d []). exact Hnd.
Qed.

Lemma table_by_scope_kwargs_keys
    (code table lower_bound upper_bound limit reverse show_payer : pyobj) :
  List.NoDup
    (dict_keys
       (table_by_scope_kwargs code table lower_bound upper_bound limit
          reverse show_payer)).
Proof.
  unfold table_by_scope_kwargs, dict_keys; simpl.
  repeat (constructor;
          [simpl; intros H;
           repeat (destruct H as [H|H]; [discriminate H|]); exact H|]).
  constructor.
Qed.

Lemma table_rows_kwargs_keys
    (code table scope json index_position key_type encode_type
     lower_bound upper_bound limit reverse show_payer : pyobj) :
  List.NoDup
    (dict_keys
       (table_rows_kwargs code table scope json index_position key_type
          encode_type lower_bound upper_bound limit reverse show_payer)).
Proof.
  unfold table_rows_kwargs, dict_keys; simpl.
  repeat (constructor;
          [simpl; intros H;
           repeat (destruct H as [H|H]; [discriminate H|]); exact H|]).
  constructor.
Qed.

(** C4, as the code has it.  [_request] hands the payload it is given to
    [post] as it is, [None] values included; the filtering is done by
    [get_table_rows] when it builds the payload of its first request: every
    keyword argument that is [None] is left out, every other one is sent with
    its value, in the order of the arguments.  [get_table_by_scope] does the
    same to its own keyword arguments. *)
Theorem payload_filtering_by_caller
    (code table scope json index_position key_type encode_type
     lower_bound upper_bound limit reverse show_payer : pyobj)
    (full : bool) (endpoint : string) (payload : pyobj) (st : state) :
  (exists r,
     posts (trace (snd (_request endpoint payload st)))
       = (posts (trace st) ++ [r])%list
     /\ req_json r = payload)
  /\ (exists r rest,
        posts (trace (snd (get_table_rows code table scope json
                             index_position key_type encode_type lower_bound
                             upper_bound limit reverse show_payer full st)))
          = (posts (trace st) ++ r :: rest)%list
        /\ req_json r =
           PDict (table_rows_payload code table scope json index_position
                    key_type encode_type lower_bound upper_bound limit
                    reverse show_payer))
  /\ (forall k,
        dict_get (table_rows_payload code table scope json index_position
                    key_type encode_type lower_bound upper_bound limit
                    reverse show_payer) k =
        match dict_get (table_rows_kwargs code table scope json
                          index_position key_type encode_type lower_bound
                          upper_bound limit reverse show_payer) k with
        | Some PNone => None
        | o => o
        end)
  /\ (forall c t lb ub lim rv sp,
      exists r,
        posts (trace (snd (get_table_by_scope c t lb ub lim rv sp st)))
          = (posts (trace st) ++ [r])%list
        /\ req_json r =
           PDict (drop_none (table_by_scope_kwargs c t lb ub lim rv sp))).
Proof.
  split; [|split; [|split]]; cycle 3.
  - intros c t lb ub lim rv sp. unfold get_table_by_scope.
    rewrite request_unfold. cbn [snd]. rewrite after_request_posts.
    rewrite del_none_keys_drop_none by apply table_by_scope_kwargs_keys.
    eexists. split; reflexivity.
  - rewrite request_unfold. cbn [snd]. rewrite after_request_posts.
    eexists. split; reflexivity.
  - unfold get_table_rows.
    destruct (loop_trace 1000 full
                (table_rows_payload code table scope json index_position
                   key_type encode_type lower_bound upper_bound limit
                   reverse show_payer) [] st) as [rest [Heq [_ Hhd]]].
    rewrite Heq. destruct rest as [|r rest].
    + specialize (Hhd ltac:(discriminate)). discriminate Hhd.
    + specialize (Hhd ltac:(discriminate)). simpl in Hhd.
      injection Hhd as ->. eexists _, rest. split; reflexivity.
  - intros k. apply drop_none_get, table_rows_kwargs_keys.
Qed.

(** ** Connection scope: [__enter__] / [__exit__] *)

Lemma after_request_held endpoint payload st h :
  client (self st) = Some h ->
  closed (after_request endpoint payload st) = closed st
  /\ creations (trace (after_request endpoint payload st))
     = creations (trace st).
Proof.
  intros Hc. unfold after_request, acquire. rewrite Hc. simpl.
  rewrite creations_app; simpl. rewrite app_nil_r. auto.
Qed.

Lemma call_all_held calls : forall st h,
  client (self st) = Some h ->
  self (snd (call_all calls st)) = self st
  /\ closed (snd (call_all calls st)) = closed st
  /\ creations (trace (snd (call_all calls st))) = creations (trace st)
  /\ exits (trace (snd (call_all calls st))) = exits (trace st).
Proof.
  induction calls as [|[endpoint payload] calls IH]; intros st h Hc.
  - simpl. auto.
  - cbn [call_all]. unfold bind. rewrite request_unfold.
    destruct (after_request_held endpoint payload st h Hc) as [Hcl Hcr].
    pose proof (after_request_self endpoint payload st) as Hself.
    pose proof (after_request_exits endpoint payload st) as Hex.
    destruct (classify _ _ _) as [v|e]; cbn [snd]; [|auto].
    destruct (IH (after_request endpoint payload st) h) as [H1 [H2 [H3 H4]]].
    { rewrite Hself. exact Hc. }
    rewrite H1, H2, H3, H4. auto.
Qed.

Lemma enter_eq st : __enter__ st = (Ok tt, entered st).
Proof.
  unfold entered, __enter__, bind, get_self.
  destruct (client (self st)); reflexivity.
Qed.

Lemma entered_held st h : client (self st) = Some h -> entered st = st.
Proof.
  intros Hc. unfold entered, __enter__, bind, get_self. rewrite Hc.
  reflexivity.
Qed.

Lemma entered_lazy st :
  client (self st) = None ->
  client (self (entered st)) = Some (next_handle st)
  /\ creations (trace (entered st))
     = (creations (trace st) ++ [next_handle st])%list
  /\ exits (trace (entered st)) = exits (trace st).
Proof.
  intros Hc. unfold entered, __enter__, bind, get_self. rewrite Hc. cbn.
  rewrite creations_app, exits_app. cbn. rewrite app_nil_r. auto.
Qed.

Lemma with_net_effect body st h :
  client (self (entered st)) = Some h ->
  snd (with_net (call_all body) st) =
  record_event (Client_exit h)
    (mark h true (snd (call_all body (entered st)))).
Proof.
  intros Hc. unfold with_net. rewrite enter_eq.
  destruct (call_all_held body (entered st) h Hc) as [Hself _].
  destruct (call_all body (entered st)) as [r st2]. cbn [snd] in *.
  unfold __exit__, bind, get_self. rewrite Hself, Hc. reflexivity.
Qed.

(** What a scope does to the handle [h] it runs on. *)
Lemma with_net_closes body st h :
  client (self (entered st)) = Some h ->
  released (snd (with_net (call_all body) st))
  /\ closed (snd (with_net (call_all body) st)) h = true
  /\ exits (trace (snd (with_net (call_all body) st)))
     = (exits (trace (entered st)) ++ [h])%list
  /\ creations (trace (snd (with_net (call_all body) st)))
     = creations (trace (entered st)).
Proof.
  intros Hc. rewrite (with_net_effect body st h Hc).
  destruct (call_all_held body (entered st) h Hc) as [Hself [_ [Hcr Hex]]].
  assert (Hcl : closed (record_event (Client_exit h)
                          (mark h true (snd (call_all body (entered st))))) h
                = true).
  { cbn. rewrite Nat.eqb_refl. reflexivity. }
  split; [|split; [exact Hcl|split]].
  - exists h. split; [|exact Hcl]. cbn. rewrite Hself. exact Hc.
  - cbn. rewrite exits_app, Hex. reflexivity.
  - cbn. rewrite creations_app, Hcr. cbn. apply app_nil_r.
Qed.

Lemma run_each_released later : forall st,
  released st ->
  released (run_each later st)
  /\ creations (trace (run_each later st)) = creations (trace st).
Proof.
  induction later as [|[endpoint payload] later IH]; intros st Hr.
  - simpl. auto.
  - cbn [run_each]. rewrite request_unfold. cbn [snd].
    destruct (IH _ (after_request_released endpoint payload st Hr))
      as [H1 H2].
    split; [exact H1|]. rewrite H2.
    destruct Hr as [h [Hc _]].
    apply (after_request_held endpoint payload st h Hc).
Qed.

Lemma request_released endpoint payload st :
  released st ->
  fst (_request endpoint payload st) = Raise (RuntimeError closed_msg).
Proof.
  intros Hr. rewrite request_unfold. cbn [fst].
  rewrite transport_post_released by exact Hr. reflexivity.
Qed.

Lemma loop_released n full payload rows st :
  released st ->
  fst (get_table_rows_loop (S n) full payload rows st)
  = Raise (RuntimeError closed_msg).
Proof.
  intros Hr. cbn [get_table_rows_loop]. unfold bind at 1.
  pose proof (request_released table_rows_endpoint (PDict payload) st Hr)
    as Hreq.
  destruct (_request _ _ st) as [r st3]. cbn [fst] in Hreq. subst r.
  reflexivity.
Qed.

Lemma scope_released body st :
  released (snd (with_net (call_all body) st)).
Proof.
  destruct (client (self st)) as [h|] eqn:Hc.
  - apply (with_net_closes body st h).
    rewrite (entered_held st h Hc). exact Hc.
  - apply (with_net_closes body st (next_handle st)).
    apply entered_lazy, Hc.
Qed.

(** C5, as the code has it.  Outside a scope and with no handle on the
    object, a call creates one fresh handle, does not keep it and never
    closes it.  At the end of a scope the core closes the handle the object
    holds: the caller's own handle when one was supplied (and then no handle
    was created), or else the one [__enter__] created. *)
Theorem scope_exit_closes_held_handle
    (body : list (string * pyobj)) (endpoint : string) (payload : pyobj)
    (st : state) :
  (client (self st) = None ->
   creations (trace (snd (_request endpoint payload st)))
     = (creations (trace st) ++ [next_handle st])%list
   /\ exits (trace (snd (_request endpoint payload st))) = exits (trace st)
   /\ closed (snd (_request endpoint payload st)) (next_handle st) = false
   /\ client (self (snd (_request endpoint payload st))) = None)
  /\ (forall h,
        client (self st) = Some h ->
        closed (snd (with_net (call_all body) st)) h = true
        /\ exits (trace (snd (with_net (call_all body) st)))
           = (exits (trace st) ++ [h])%list
        /\ creations (trace (snd (with_net (call_all body) st)))
           = creations (trace st))
  /\ (client (self st) = None ->
      closed (snd (with_net (call_all body) st)) (next_handle st) = true
      /\ exits (trace (snd (with_net (call_all body) st)))
         = (exits (trace st) ++ [next_handle st])%list
      /\ creations (trace (snd (with_net (call_all body) st)))
         = (creations (trace st) ++ [next_handle st])%list).
Proof.
  split; [|split].
  - intros Hc. rewrite request_unfold. cbn [snd].
    rewrite after_request_exits, after_request_self.
    unfold after_request, acquire. rewrite Hc. cbn.
    rewrite !creations_app. cbn. rewrite app_nil_r, Nat.eqb_refl. auto.
  - intros h Hc.
    destruct (with_net_closes body st h) as [_ [Hcl [Hex Hcr]]].
    { rewrite (entered_held st h Hc). exact Hc. }
    rewrite (entered_held st h Hc) in Hex, Hcr. auto.
  - intros Hc. destruct (entered_lazy st Hc) as [He [Hcr0 Hex0]].
    destruct (with_net_closes body st (next_handle st) He)
      as [_ [Hcl [Hex Hcr]]].
    rewrite Hex0 in Hex. rewrite Hcr0 in Hcr. auto.
Qed.

(** C6. Once a scope on the object has been left - whatever the state before
    it, whatever calls were made inside it and after it - every call through
    the same object raises [RuntimeError("Cannot send a request, as the
    client has been closed.")], [get_table_rows] included, and no new handle
    is created for it. *)
Theorem use_after_release_fails
    (body later : list (string * pyobj)) (endpoint : string) (payload : pyobj)
    (st : state) :
  let st1 := snd (with_net (call_all body) st) in
  let st2 := run_each later st1 in
  released st1
  /\ fst (_request endpoint payload st2) = Raise (RuntimeError closed_msg)
  /\ (forall code table scope json index_position key_type encode_type
             lower_bound upper_bound limit reverse show_payer full,
        fst (get_table_rows code table scope json index_position key_type
               encode_type lower_bound upper_bound limit reverse show_payer
               full st2)
        = Raise (RuntimeError closed_msg))
  /\ creations (trace (snd (_request endpoint payload st2)))
     = creations (trace st1).
Proof.
  intros st1 st2.
  pose proof (scope_released body st) as Hr1. fold st1 in Hr1.
  destruct (run_each_released later st1 Hr1) as [Hr2 Hcr2]. fold st2 in Hr2.
  split; [exact Hr1|]. split; [apply request_released, Hr2|]. split.
  - intros c t s j ip kt et lb ub lim rv sp full.
    unfold get_table_rows. change 1000%nat with (S 999).
    apply loop_released, Hr2.
  - rewrite request_unfold. cbn [snd]. fold st2 in Hcr2. rewrite <- Hcr2.
    destruct Hr2 as [h [Hc _]].
    apply (after_request_held endpoint payload st2 h Hc).
Qed.

(** ** Further properties of the request executor *)

Lemma dict_get_set_ne {V} (d : dict V) (k k' : string) (v : V) :
  k <> k' -> dict_get (dict_set d k' v) k = dict_get d k.
Proof.
  intros Hne. apply String.eqb_neq in Hne.
  induction d as [|[k0 v0] d IH]; simpl.
  - rewrite Hne. reflexivity.
  - destruct (String.eqb k' k0) eqn:E; simpl.
    + apply String.eqb_eq in E. subst k0. rewrite Hne. reflexivity.
    + destruct (String.eqb k k0); [reflexivity|exact IH].
Qed.

(** [d.update(other)] on dicts: the value of [other] where it has the key,
    the value of [d] elsewhere. *)
Lemma dict_get_update {V} (other : dict V) : forall (d : dict V) (k : string),
  List.NoDup (dict_keys other) ->
  dict_get (dict_update d other) k =
  match dict_get other k with
  | Some v => Some v
  | None => dict_get d k
  end.
Proof.
  induction other as [|[k' v] other IH]; intros d k Hnd; [reflexivity|].
  inversion Hnd as [|? ? Hnotin Hnd']; subst.
  unfold dict_update in *. cbn [fold_left fst snd]. rewrite IH by exact Hnd'.
  cbn [dict_get]. destruct (String.eqb_spec k k') as [->|Hne].
  - rewrite (dict_get_notin other k' Hnotin). apply dict_get_set_eq.
  - destruct (dict_get other k); [reflexivity|].
    apply dict_get_set_ne, Hne.
Qed.

(** X1. The request [_request] posts goes to [urljoin(self.host, endpoint)]
    with [self.auth], and its headers are the two defaults overlaid with
    [self.headers]: a header the object has wins, [user-agent] included, and
    a default it does not have is sent as it is. *)
Theorem request_headers_overlay
    (endpoint : string) (payload : pyobj) (st : state) :
  List.NoDup (dict_keys (headers (self st))) ->
  exists r,
    posts (trace (snd (_request endpoint payload st)))
      = (posts (trace st) ++ [r])%list
    /\ req_url r = urljoin (host (self st)) endpoint
    /\ req_auth r = auth (self st)
    /\ (forall k,
          dict_get (req_headers r) k =
          match dict_get (headers (self st)) k with
          | Some v => Some v
          | None =>
              dict_get [("user-agent", "xprpy/" +:+ __version__);
                        ("content-type", "application/json")] k
          end).
Proof.
  intros Hnd. rewrite request_unfold. cbn [snd].
  rewrite after_request_posts. eexists. split; [reflexivity|].
  split; [reflexivity|]. split; [reflexivity|].
  intros k. cbn [req_headers request_of].
  apply (dict_get_update (headers (self st)) default_headers k Hnd).
Qed.

(** X2. An exception of [post] that is not an instance of
    [TimeoutException], [NetworkError] or [WriteError] leaves [_request] as
    it is, not wrapped in [ConnectionError]; the post has been made once. *)
Theorem uncaught_error_propagates
    (endpoint : string) (payload : pyobj) (st : state) (e : exc) :
  transport_post endpoint payload st = Raise e ->
  is_transport_failure e = false ->
  fst (_request endpoint payload st) = Raise e
  /\ posts (trace (snd (_request endpoint payload st)))
     = (posts (trace st) ++ [request_of (self st) endpoint payload])%list.
Proof.
  intros Hp He. rewrite request_unfold. cbn [fst snd].
  rewrite Hp, after_request_posts. unfold classify. rewrite He. auto.
Qed.

(** X3. The exceptions of the transport library that [_request] wraps are
    the timeout and network classes and their subclasses, ten in all; the
    [WriteError] of the [except] clause is already covered by [NetworkError].
    Protocol, proxy, decoding and redirect errors are not wrapped. *)
Theorem wrapped_transport_classes (c : httpx_class) (msg : string) :
  (is_transport_failure (Httpx c msg) = true <->
   In c [TimeoutException; ConnectTimeout; ReadTimeout; WriteTimeout;
         PoolTimeout; NetworkError; ConnectError; ReadError; WriteError;
         CloseError])
  /\ is_transport_failure (Httpx c msg)
     = issubclass c TimeoutException || issubclass c NetworkError.
Proof.
  split.
  - destruct c; cbn;
      (split;
       [intros H; first [discriminate H | intuition reflexivity]
       |intros H; first [reflexivity | intuition discriminate]]).
  - destruct c; reflexivity.
Qed.

(** X4. The status check comes before decoding: a response with a rejected
    status raises [ConnectionError] whether or not its body decodes, and a
    response with an accepted status whose body does not decode raises the
    decoding error, not [ConnectionError]. *)
Theorem undecodable_body
    (endpoint : string) (payload : pyobj) (st : state) (resp : response) :
  transport_post endpoint payload st = Ok resp ->
  json_body resp = None ->
  (accepted resp = true ->
   fst (_request endpoint payload st) = Raise JSONDecodeError)
  /\ (accepted resp = false ->
      fst (_request endpoint payload st) =
      Raise (ConnectionError (Some resp)
               (urljoin (host (self st)) endpoint) payload None)).
Proof.
  intros Hp Hb. rewrite request_unfold. cbn [fst]. rewrite Hp.
  unfold classify, accepted. rewrite Hb.
  destruct (Z.ltb_spec 299 (status_code resp));
    destruct (Z.leb_spec (status_code resp) 299);
    destruct (Z.eqb_spec (status_code resp) 500);
    cbn; split; intros Hacc; try reflexivity; try discriminate Hacc; lia.
Qed.

(** ** Further properties of the paginator *)

Lemma step_raise n full payload rows st e :
  fst (_request table_rows_endpoint (PDict payload) st) = Raise e ->
  fst (get_table_rows_loop (S n) full payload rows st) = Raise e.
Proof.
  intros H. cbn [get_table_rows_loop]. unfold bind at 1.
  destruct (_request _ _ st) as [r st']. cbn [fst] in H. subst r.
  reflexivity.
Qed.

Lemma step_scalar_body n full payload rows st resp v :
  usable st ->
  server (length (posts (trace st)))
    (request_of (self st) table_rows_endpoint (PDict payload)) = Ok resp ->
  accepted resp = true ->
  json_body resp = Some v ->
  is_scalar v = true ->
  fst (get_table_rows_loop (S n) full payload rows st) = Raise TypeError.
Proof.
  intros Hu Hs Ha Hb Hv. cbn [get_table_rows_loop]. unfold bind at 1.
  rewrite (request_accepted _ _ _ _ _ Hu Hs Ha Hb).
  destruct v; try discriminate Hv; reflexivity.
Qed.

Lemma step_scalar_rows n full payload rows st resp d w :
  usable st ->
  server (length (posts (trace st)))
    (request_of (self st) table_rows_endpoint (PDict payload)) = Ok resp ->
  accepted resp = true ->
  json_body resp = Some (PDict d) ->
  dict_get d "rows" = Some w ->
  is_scalar w = true ->
  fst (get_table_rows_loop (S n) full payload rows st) = Raise TypeError.
Proof.
  intros Hu Hs Ha Hb Hw Hsc. cbn [get_table_rows_loop]. unfold bind at 1.
  rewrite (request_accepted _ _ _ _ _ Hu Hs Ha Hb).
  unfold bind, lift; cbn. rewrite Hw. cbn.
  destruct w; try discriminate Hsc; reflexivity.
Qed.

Lemma loop_requests (slf : Net) (payload0 : dict pyobj) n :
  forall full payload rows st,
  self st = slf ->
  (forall k, k <> "lower_bound" ->
             dict_get payload k = dict_get payload0 k) ->
  exists rest,
    posts (trace (snd (get_table_rows_loop n full payload rows st)))
      = (posts (trace st) ++ rest)%list
    /\ Forall
         (fun r =>
            exists d,
              r = request_of slf table_rows_endpoint (PDict d) /\
              forall k, k <> "lower_bound" ->
                        dict_get d k = dict_get payload0 k)
         rest.
Proof.
  induction n as [|n IH]; intros full payload rows st Hself Hagree.
  - exists []. cbn. rewrite app_nil_r. split; [reflexivity|constructor].
  - cbn [get_table_rows_loop]. unfold bind at 1. rewrite request_unfold.
    pose proof (after_request_posts table_rows_endpoint (PDict payload) st)
      as Hone. rewrite Hself in Hone.
    assert (Hthis : exists d,
              request_of slf table_rows_endpoint (PDict payload)
              = request_of slf table_rows_endpoint (PDict d) /\
              forall k, k <> "lower_bound" ->
                        dict_get d k = dict_get payload0 k).
    { exists payload. split; [reflexivity|exact Hagree]. }
    assert (Hleaf : exists rest,
      posts (trace (after_request table_rows_endpoint (PDict payload) st))
        = (posts (trace st) ++ rest)%list
      /\ Forall
           (fun r =>
              exists d,
                r = request_of slf table_rows_endpoint (PDict d) /\
                forall k, k <> "lower_bound" ->
                          dict_get d k = dict_get payload0 k)
           rest).
    { eexists. split; [exact Hone|]. constructor; [exact Hthis|constructor]. }
    destruct (classify _ _ _) as [data|e]; [|exact Hleaf].
    unfold bind at 1, lift at 1.
    destruct (py_contains "rows" data) as [b|e]; [|exact Hleaf].
    destruct b; cbn [negb]; [|exact Hleaf].
    unfold bind at 1, lift at 1.
    destruct (py_getitem data "rows") as [v|e]; [|exact Hleaf].
    unfold bind at 1, lift at 1.
    destruct (py_iter v) as [new_rows|e]; [|exact Hleaf].
    unfold bind at 1.
    destruct full; cbn [negb].
    + unfold bind at 1, lift at 1.
      destruct (py_get data "more") as [more|e]; [|exact Hleaf].
      unfold ret at 1. cbv iota beta.
      destruct (negb (truthy more)); [exact Hleaf|].
      unfold bind at 1, lift at 1.
      destruct (py_getitem data "next_key") as [lb|e]; [|exact Hleaf].
      destruct (IH true (dict_set payload "lower_bound" lb)
                  (rows ++ new_rows)%list
                  (after_request table_rows_endpoint (PDict payload) st))
        as [rest [Hrest Hall]].
      * rewrite after_request_self. exact Hself.
      * intros k Hk. rewrite dict_get_set_ne by exact Hk. apply Hagree, Hk.
      * exists (request_of slf table_rows_endpoint (PDict payload) :: rest).
        rewrite Hrest, Hone, <- app_assoc. split; [reflexivity|].
        constructor; [exact Hthis|exact Hall].
    + exact Hleaf.
Qed.

Section TableRowsMore.

Variables code table scope json index_position key_type encode_type
  lower_bound upper_bound limit reverse show_payer : pyobj.

Local Abbreviation first_payload :=
  (table_rows_payload code table scope json index_position key_type
     encode_type lower_bound upper_bound limit reverse show_payer).

Local Abbreviation read :=
  (get_table_rows code table scope json index_position key_type encode_type
     lower_bound upper_bound limit reverse show_payer).

(** X5. Without [full], [get_table_rows] returns the rows of the first page
    and nothing else, also when that page reports more pages and carries a
    [next_key]. *)
Theorem not_full_returns_first_page (p : response) (st : state) :
  usable st ->
  server (length (posts (trace st)))
    (request_of (self st) table_rows_endpoint (PDict first_payload)) = Ok p ->
  rows_page p = true ->
  fst (read false st) = Ok (PList (page_rows p)).
Proof.
  intros Hu Hs Hr. unfold get_table_rows. change 1000%nat with (S 999).
  rewrite (step_last _ _ _ _ _ _ Hu Hs Hr (or_introl eq_refl)).
  reflexivity.
Qed.

(** X6. In a full read, when the pages of [pre] have been fetched and the
    next [post] raises a timeout or network error, the call raises
    [ConnectionError] for that request - its payload carries the last
    [next_key] as [lower_bound] - and the rows fetched so far are not
    returned. *)
Theorem failed_page_discards_rows
    (pre : list response) (e : exc) (st : state) :
  usable st ->
  Forall (fun p => more_page p = true) pre ->
  (length pre < 1000)%nat ->
  (forall i p r, pre !! i = Some p ->
                 server (length (posts (trace st)) + i) r = Ok p) ->
  (forall r, server (length (posts (trace st)) + length pre) r = Raise e) ->
  is_transport_failure e = true ->
  fst (read true st) =
  Raise (ConnectionError None
           (urljoin (host (self st)) table_rows_endpoint)
           (PDict (payload_after first_payload pre)) (Some e)).
Proof.
  intros Hu Hall Hlen Hsrv Hfail He.
  destruct (read_prefix code table scope json index_position key_type
              encode_type lower_bound upper_bound limit reverse show_payer
              pre st Hu Hall Hlen Hsrv) as [st1 [Heq [Hu1 [Hs1 Hp1]]]].
  rewrite Heq. apply step_raise.
  rewrite request_unfold. cbn [fst].
  rewrite transport_post_usable by exact Hu1.
  rewrite Hp1, length_app, length_map, payloads_length, Hfail.
  unfold classify. rewrite He, Hs1. reflexivity.
Qed.

(** X7. Whatever the remote node answers, every request [get_table_rows]
    posts goes to the same URL with the same headers and credentials, and its
    payload agrees with the payload of the first request on every key but
    [lower_bound]. *)
Theorem pagination_changes_only_lower_bound (full : bool) (st : state) :
  exists reqs,
    posts (trace (snd (read full st))) = (posts (trace st) ++ reqs)%list
    /\ Forall
         (fun r =>
            exists d,
              r = request_of (self st) table_rows_endpoint (PDict d) /\
              forall k, k <> "lower_bound" ->
                        dict_get d k = dict_get first_payload k)
         reqs.
Proof.
  unfold get_table_rows.
  apply (loop_requests (self st) first_payload 1000 full first_payload [] st).
  - reflexivity.
  - intros k _. reflexivity.
Qed.

(** X8. A body that is [None], a [bool] or a number makes [get_table_rows]
    raise [TypeError] (from [in]), and so does an object whose [rows] is
    such a value (from [+=]); neither is returned to the caller. *)
Theorem malformed_body_raises_type_error
    (full : bool) (resp : response) (v : pyobj) (st : state) :
  usable st ->
  server (length (posts (trace st)))
    (request_of (self st) table_rows_endpoint (PDict first_payload))
    = Ok resp ->
  accepted resp = true ->
  json_body resp = Some v ->
  (is_scalar v = true -> fst (read full st) = Raise TypeError)
  /\ (forall d w,
        v = PDict d -> dict_get d "rows" = Some w -> is_scalar w = true ->
        fst (read full st) = Raise TypeError).
Proof.
  intros Hu Hs Ha Hb. unfold get_table_rows. change 1000%nat with (S 999).
  split.
  - intros Hv. apply (step_scalar_body _ _ _ _ _ _ _ Hu Hs Ha Hb Hv).
  - intros d w -> Hw Hsc.
    apply (step_scalar_rows _ _ _ _ _ _ _ _ Hu Hs Ha Hb Hw Hsc).
Qed.

End TableRowsMore.

(** ** Further properties of the connection scope *)

Lemma post_handles_app (t1 t2 : list event) :
  post_handles (t1 ++ t2)%list = (post_handles t1 ++ post_handles t2)%list.
Proof. unfold post_handles. apply flat_map_app. Qed.

Lemma entered_client st :
  client (self (entered st)) =
  Some (match client (self st) with Some c => c | None => next_handle st end).
Proof.
  destruct (client (self st)) as [c|] eqn:Hc.
  - rewrite (entered_held st c Hc). exact Hc.
  - apply entered_lazy, Hc.
Qed.

Lemma entered_post_handles st :
  post_handles (trace (entered st)) = post_handles (trace st).
Proof.
  unfold entered, __enter__, bind, get_self.
  destruct (client (self st)); cbn; [reflexivity|].
  rewrite post_handles_app. cbn. apply app_nil_r.
Qed.

Lemma call_all_post_handles calls : forall st h,
  client (self st) = Some h ->
  exists k,
    (k <= length calls)%nat /\
    post_handles (trace (snd (call_all calls st)))
    = (post_handles (trace st) ++ repeat h k)%list.
Proof.
  induction calls as [|[endpoint payload] calls IH]; intros st h Hc.
  - exists O. cbn. rewrite app_nil_r. auto.
  - cbn [call_all]. unfold bind. rewrite request_unfold.
    assert (Hone : post_handles (trace (after_request endpoint payload st))
                   = (post_handles (trace st) ++ [h])%list).
    { unfold after_request, acquire. rewrite Hc. cbn.
      rewrite post_handles_app. reflexivity. }
    destruct (classify _ _ _) as [v|e]; cbn [snd].
    + destruct (IH (after_request endpoint payload st) h) as [k [Hk Hposts]].
      { rewrite after_request_self. exact Hc. }
      exists (S k). split; [cbn; lia|].
      rewrite Hposts, Hone, <- app_assoc. reflexivity.
    + exists 1%nat. split; [cbn; lia|exact Hone].
Qed.

(** X9. [with net: body] returns what the body returns and raises what the
    body raises: leaving the scope neither swallows nor replaces the outcome
    of the calls made in it. *)
Theorem scope_keeps_outcome (body : list (string * pyobj)) (st : state) :
  fst (with_net (call_all body) st) = fst (call_all body (entered st)).
Proof.
  unfold with_net. rewrite enter_eq.
  pose proof (entered_client st) as Hc.
  destruct (call_all_held body (entered st) _ Hc) as [Hself _].
  destruct (call_all body (entered st)) as [r st2]. cbn [snd fst] in *.
  unfold __exit__, bind, get_self. rewrite Hself, Hc. reflexivity.
Qed.

(** X10. Every [post] made inside a scope goes to one and the same handle:
    the one the object was given, or else the one [__enter__] created; and
    there are at most as many posts as calls. *)
Theorem scope_posts_on_one_handle (body : list (string * pyobj)) (st : state) :
  exists k,
    (k <= length body)%nat /\
    post_handles (trace (snd (with_net (call_all body) st)))
    = (post_handles (trace st) ++
       repeat (match client (self st) with
               | Some c => c
               | None => next_handle st
               end) k)%list.
Proof.
  pose proof (entered_client st) as Hc.
  rewrite (with_net_effect body st _ Hc).
  destruct (call_all_post_handles body (entered st) _ Hc) as [k [Hk Hp]].
  exists k. split; [exact Hk|]. cbn. rewrite post_handles_app, Hp. cbn.
  rewrite app_nil_r, entered_post_handles. reflexivity.
Qed.

(** X11. Outside a scope and without a handle on the object, every call
    creates its own fresh handle and posts on it: [k] calls create [k]
    handles, none of which is closed or kept. *)
Theorem ephemeral_handle_per_call (calls : list (string * pyobj)) :
  forall st,
    client (self st) = None ->
    creations (trace (run_each calls st))
      = (creations (trace st) ++ seq (next_handle st) (length calls))%list
    /\ post_handles (trace (run_each calls st))
       = (post_handles (trace st) ++
          seq (next_handle st) (length calls))%list
    /\ exits (trace (run_each calls st)) = exits (trace st)
    /\ client (self (run_each calls st)) = None.
Proof.
  induction calls as [|[endpoint payload] calls IH]; intros st Hc.
  - cbn. rewrite !app_nil_r. auto.
  - cbn [run_each]. rewrite request_unfold. cbn [snd].
    assert (Hst : client (self (after_request endpoint payload st)) = None
                  /\ next_handle (after_request endpoint payload st)
                     = S (next_handle st)
                  /\ creations (trace (after_request endpoint payload st))
                     = (creations (trace st) ++ [next_handle st])%list
                  /\ post_handles (trace (after_request endpoint payload st))
                     = (post_handles (trace st) ++ [next_handle st])%list).
    { rewrite after_request_self. unfold after_request, acquire.
      rewrite Hc. cbn. rewrite !creations_app, !post_handles_app. cbn.
      rewrite !app_nil_r. auto. }
    destruct Hst as [Hc' [Hn [Hcr Hph]]].
    destruct (IH _ Hc') as [H1 [H2 [H3 H4]]].
    rewrite H1, H2, H3, H4, Hn, Hcr, Hph, after_request_exits.
    cbn [length seq]. rewrite <- !app_assoc. auto.
Qed.

(** X12. An object whose scope has been left cannot be entered again: in a
    second [with] block [__enter__] keeps the closed handle, creates no new
    one, and the first call of the block raises the [RuntimeError] of the
    closed handle. *)
Theorem reentered_scope_fails
    (endpoint : string) (payload : pyobj) (rest : list (string * pyobj))
    (st : state) :
  released st ->
  fst (with_net (call_all ((endpoint, payload) :: rest)) st)
    = Raise (RuntimeError closed_msg)
  /\ creations
       (trace (snd (with_net (call_all ((endpoint, payload) :: rest)) st)))
     = creations (trace st).
Proof.
  intros Hr. pose proof Hr as [h [Hc Hh]].
  rewrite scope_keeps_outcome, (entered_held st h Hc). split.
  - cbn [call_all]. unfold bind.
    pose proof (request_released endpoint payload st Hr) as Hreq.
    destruct (_request endpoint payload st) as [r st']. cbn [fst] in Hreq.
    subst r. reflexivity.
  - destruct (with_net_closes ((endpoint, payload) :: rest) st h)
      as [_ [_ [_ Hcr]]].
    { rewrite (entered_held st h Hc). exact Hc. }
    rewrite Hcr, (entered_held st h Hc). reflexivity.
Qed.

(** ** Properties of the remaining endpoint methods *)

Lemma fromhex_byte_hex (b : byte) (rest : list ascii) :
  fromhex_chars (byte_hex b ++ rest)%list =
  match fromhex_chars rest with
  | Some bs => Some (b :: bs)
  | None => None
  end.
Proof. destruct b; reflexivity. Qed.

Lemma fromhex_hex (bs : list byte) :
  fromhex_chars (flat_map byte_hex bs) = Some bs.
Proof.
  induction bs as [|b bs IH]; [reflexivity|].
  cbn [flat_map]. rewrite fromhex_byte_hex, IH. reflexivity.
Qed.

Lemma bytes_fromhex_hex (bs : list byte) :
  bytes_fromhex (PStr (bytes_hex bs)) = Ok bs.
Proof.
  unfold bytes_fromhex, bytes_hex.
  rewrite String.list_ascii_of_string_of_list_ascii, fromhex_hex.
  reflexivity.
Qed.

(** X13. [abi_bin_to_json] sends its bytes as [binargs] in lower-case
    hexadecimal, and [abi_json_to_bin] turns a [binargs] written that way
    back into the same bytes. *)
Theorem abi_binargs_round_trip
    (account_name action json : pyobj) (b : list byte)
    (resp : response) (d : dict pyobj) (st : state) :
  usable st ->
  (forall r, server (length (posts (trace st))) r = Ok resp) ->
  accepted resp = true ->
  json_body resp = Some (PDict d) ->
  dict_get d "binargs" = Some (PStr (bytes_hex b)) ->
  fst (abi_json_to_bin account_name action json st) = Ok (inr b)
  /\ exists r,
       posts (trace (snd (abi_bin_to_json account_name action b st)))
         = (posts (trace st) ++ [r])%list
       /\ req_json r =
          PDict [("code", account_name); ("action", action);
                 ("binargs", PStr (bytes_hex b))].
Proof.
  intros Hu Hs Ha Hb Hbin. split.
  - unfold abi_json_to_bin. unfold bind at 1.
    rewrite (request_accepted _ _ _ _ _ Hu (Hs _) Ha Hb).
    unfold bind, lift, ret. cbn [py_contains]. rewrite Hbin.
    cbn [negb py_getitem]. rewrite Hbin, bytes_fromhex_hex. reflexivity.
  - unfold abi_bin_to_json. unfold bind at 1. rewrite request_unfold.
    exists (request_of (self st) "/v1/chain/abi_bin_to_json"
              (PDict [("code", account_name); ("action", action);
                      ("binargs", PStr (bytes_hex b))])).
    split; [|reflexivity].
    rewrite <- after_request_posts.
    destruct (classify _ _ _) as [data|e]; [|reflexivity].
    unfold lift. reflexivity.
Qed.

(** X14. On an accepted response without the expected key - such as the
    structured error the node sends with status 500 - [abi_json_to_bin]
    returns the body as data, while [abi_bin_to_json] raises
    [KeyError('args')]. *)
Theorem abi_methods_on_error_body
    (account_name action json : pyobj) (b : list byte)
    (resp : response) (d : dict pyobj) (st : state) :
  usable st ->
  (forall r, server (length (posts (trace st))) r = Ok resp) ->
  accepted resp = true ->
  json_body resp = Some (PDict d) ->
  (dict_get d "binargs" = None ->
   fst (abi_json_to_bin account_name action json st) = Ok (inl (PDict d)))
  /\ (dict_get d "args" = None ->
      fst (abi_bin_to_json account_name action b st)
      = Raise (KeyError "args")).
Proof.
  intros Hu Hs Ha Hb. split; intros Hkey.
  - unfold abi_json_to_bin. unfold bind at 1.
    rewrite (request_accepted _ _ _ _ _ Hu (Hs _) Ha Hb).
    unfold bind, lift, ret; cbn. rewrite Hkey. reflexivity.
  - unfold abi_bin_to_json. unfold bind at 1.
    rewrite (request_accepted _ _ _ _ _ Hu (Hs _) Ha Hb).
    unfold lift; cbn. rewrite Hkey. reflexivity.
Qed.

(** X15. [get_abi] returns [None] exactly when the body it gets has one
    entry (an account without ABI answers with its [account_name] only), and
    the body itself otherwise, an empty object included. *)
Theorem get_abi_single_entry
    (account_name : pyobj) (resp : response) (d : dict pyobj) (st : state) :
  usable st ->
  (forall r, server (length (posts (trace st))) r = Ok resp) ->
  accepted resp = true ->
  json_body resp = Some (PDict d) ->
  (length d = 1%nat -> fst (get_abi account_name st) = Ok PNone)
  /\ (length d <> 1%nat -> fst (get_abi account_name st) = Ok (PDict d)).
Proof.
  intros Hu Hs Ha Hb. unfold get_abi, bind.
  rewrite (request_accepted _ _ _ _ _ Hu (Hs _) Ha Hb).
  unfold lift, ret. cbn [py_len]. split; intros Hlen.
  - rewrite Hlen. reflexivity.
  - apply Nat.eqb_neq in Hlen. rewrite Hlen. reflexivity.
Qed.

Lemma dict_keys_set_present {V} (d : dict V) (k : string) (v : V) :
  dict_get d k <> None -> dict_keys (dict_set d k v) = dict_keys d.
Proof.
  unfold dict_keys. induction d as [|[k' v'] d IH]; cbn; [congruence|].
  destruct (String.eqb_spec k k') as [->|Hne]; intros H; cbn.
  - reflexivity.
  - f_equal. apply IH, H.
Qed.

Lemma dict_get_map {V W} (f : V -> W) (d : dict V) (k : string) :
  dict_get (map (fun kv => (fst kv, f (snd kv))) d) k
  = option_map f (dict_get d k).
Proof.
  induction d as [|[k' v'] d IH]; cbn; [reflexivity|].
  destruct (String.eqb k k'); [reflexivity|exact IH].
Qed.

Lemma dict_keys_map {V W} (f : V -> W) (d : dict V) :
  dict_keys (map (fun kv => (fst kv, f (snd kv))) d) = dict_keys d.
Proof.
  unfold dict_keys. induction d as [|[k' v'] d IH]; cbn; [reflexivity|].
  f_equal. exact IH.
Qed.

(** X16. [get_raw_code_and_abi] on a body with [abi] and [wasm] that both
    decode returns the body with these two values replaced by the decoded
    bytes: the keys and their order are kept and every other value is the one
    the node sent. *)
Theorem raw_code_and_abi_decodes_in_place
    (account_name : pyobj) (resp : response) (d : dict pyobj)
    (abi wasm : pyobj) (abi_bytes wasm_bytes : list byte) (st : state) :
  usable st ->
  (forall r, server (length (posts (trace st))) r = Ok resp) ->
  accepted resp = true ->
  json_body resp = Some (PDict d) ->
  dict_get d "abi" = Some abi -> b64decode abi = Ok abi_bytes ->
  dict_get d "wasm" = Some wasm -> b64decode wasm = Ok wasm_bytes ->
  exists out,
    fst (get_raw_code_and_abi account_name st) = Ok out
    /\ dict_keys out = dict_keys d
    /\ dict_get out "abi" = Some (Bytes abi_bytes)
    /\ dict_get out "wasm" = Some (Bytes wasm_bytes)
    /\ (forall k, k <> "abi" -> k <> "wasm" ->
                  dict_get out k = option_map Obj (dict_get d k)).
Proof.
  intros Hu Hs Ha Hb Habi Hda Hwasm Hdw.
  unfold get_raw_code_and_abi. unfold bind at 1.
  rewrite (request_accepted _ _ _ _ _ Hu (Hs _) Ha Hb).
  unfold bind, lift, ret; cbn. rewrite Habi, Hda, Hwasm, Hdw.
  eexists. split; [reflexivity|]. split; [|split; [|split]].
  - rewrite !dict_keys_set_present.
    + apply dict_keys_map.
    + rewrite dict_get_map, Habi. discriminate.
    + rewrite dict_get_set_ne by discriminate.
      rewrite dict_get_map, Hwasm. discriminate.
  - rewrite dict_get_set_ne by discriminate. apply dict_get_set_eq.
  - apply dict_get_set_eq.
  - intros k Hk1 Hk2. rewrite !dict_get_set_ne by assumption.
    apply dict_get_map.
Qed.

(** X17. [get_raw_code_and_abi] on an accepted body without [abi] - a
    structured error, for one - raises [KeyError('abi')]; with [abi] but
    without [wasm] it raises [KeyError('wasm')] once [abi] has decoded. *)
Theorem raw_code_and_abi_missing_key
    (account_name : pyobj) (resp : response) (d : dict pyobj) (st : state) :
  usable st ->
  (forall r, server (length (posts (trace st))) r = Ok resp) ->
  accepted resp = true ->
  json_body resp = Some (PDict d) ->
  (dict_get d "abi" = None ->
   fst (get_raw_code_and_abi account_name st) = Raise (KeyError "abi"))
  /\ (forall abi abi_bytes,
        dict_get d "abi" = Some abi -> b64decode abi = Ok abi_bytes ->
        dict_get d "wasm" = None ->
        fst (get_raw_code_and_abi account_name st) = Raise (KeyError "wasm")).
Proof.
  intros Hu Hs Ha Hb. unfold get_raw_code_and_abi, bind.
  rewrite (request_accepted _ _ _ _ _ Hu (Hs _) Ha Hb).
  unfold lift, ret; cbn. split.
  - intros ->. reflexivity.
  - intros abi abi_bytes -> -> ->. reflexivity.
Qed.

(** X18. On every dict the deletion loop of [get_table_by_scope] and the
    comprehension of [get_table_rows] give the same payload, and no value of
    it is [None]. *)
Theorem none_filters_agree (d : dict pyobj) :
  List.NoDup (dict_keys d) ->
  del_none_keys d = drop_none d
  /\ Forall (fun kv => snd kv <> PNone) (drop_none d).
Proof.
  intros Hnd. split; [apply del_none_keys_drop_none, Hnd|].
  unfold drop_none. apply Forall_forall. intros [k v] Hin.
  apply list_elem_of_In, filter_In in Hin. destruct Hin as [_ Hv].
  cbn in *. destruct v; try discriminate; discriminate Hv.
Qed.

End NetClass.

(** ** The properties at sample inputs *)

Lemma request_outcome_classification_witness :
  fst (_request Sample.urljoin Sample.version
         (Sample.always (Raise Sample.read_timeout))
         "/v1/chain/get_info" (PDict []) Sample.fresh)
  = Raise (ConnectionError None "http://127.0.0.1:8888/v1/chain/get_info"
             (PDict []) (Some Sample.read_timeout))
  /\ fst (_request Sample.urljoin Sample.version
            (Sample.always (Ok Sample.not_found))
            "/v1/chain/get_info" (PDict []) Sample.fresh)
     = Raise (ConnectionError (Some Sample.not_found)
                "http://127.0.0.1:8888/v1/chain/get_info" (PDict []) None)
  /\ fst (_request Sample.urljoin Sample.version
            (Sample.always (Ok Sample.error_page))
            "/v1/chain/get_info" (PDict []) Sample.fresh)
     = Ok (PDict [("code", PInt 500);
                  ("message", PStr "Internal Service Error")])
  /\ fst (_request Sample.urljoin Sample.version
            (Sample.always (Ok Sample.info_page))
            "/v1/chain/get_info" (PDict []) Sample.fresh)
     = Ok (PDict [("chain_id", PStr "aaaa")])
  /\ exists r p c,
       ConnectionError None "http://127.0.0.1:8888/v1/chain/get_info"
         (PDict []) (Some Sample.read_timeout)
       = ConnectionError r "http://127.0.0.1:8888/v1/chain/get_info" p c.
Proof.
  split; [|split; [|split; [|split]]].
  - apply (proj1 (request_outcome_classification Sample.urljoin
                    Sample.version (Sample.always (Raise Sample.read_timeout))
                    "/v1/chain/get_info" (PDict []) Sample.fresh)
             ReadTimeout "timed out").
    + reflexivity.
    + left. reflexivity.
  - apply (proj1 (proj2 (request_outcome_classification Sample.urljoin
                    Sample.version (Sample.always (Ok Sample.not_found))
                    "/v1/chain/get_info" (PDict []) Sample.fresh))
             Sample.not_found).
    + reflexivity.
    + left. simpl. lia.
  - apply (proj1 (proj2 (proj2 (request_outcome_classification Sample.urljoin
                    Sample.version (Sample.always (Ok Sample.error_page))
                    "/v1/chain/get_info" (PDict []) Sample.fresh)))
             Sample.error_page).
    + reflexivity.
    + left. reflexivity.
    + reflexivity.
  - apply (proj1 (proj2 (proj2 (request_outcome_classification Sample.urljoin
                    Sample.version (Sample.always (Ok Sample.info_page))
                    "/v1/chain/get_info" (PDict []) Sample.fresh)))
             Sample.info_page).
    + reflexivity.
    + right. simpl. lia.
    + reflexivity.
  - apply (proj2 (proj2 (proj2 (request_outcome_classification Sample.urljoin
                    Sample.version (Sample.always (Raise Sample.read_timeout))
                    "/v1/chain/get_info" (PDict []) Sample.fresh)))).
    + reflexivity.
    + left. exists Sample.read_timeout. split; reflexivity.
Defined.

Lemma sample_served (first other : response) :
  forall i p r,
    ([first] ++ [other])%list !! i = Some p ->
    Sample.then_ first other (length (posts (trace Sample.fresh)) + i) r
    = Ok p.
Proof.
  intros [|[|i]] p r H; simpl in H; try discriminate;
    injection H as <-; reflexivity.
Defined.

Lemma full_read_concatenates_pages_witness :
  exists st' reqs,
    get_table_rows Sample.urljoin Sample.version
      (Sample.then_ Sample.page1 Sample.page2)
      (PStr "user2") (PStr "longtable") (PStr "user2") (PBool true)
      PNone PNone PNone PNone PNone (PInt 1000) PNone PNone true Sample.fresh
    = (Ok (PList [PInt 1; PInt 2; PInt 3]), st')
    /\ posts (trace st') = (posts (trace Sample.fresh) ++ reqs)%list
    /\ length reqs = 2%nat
    /\ head reqs =
       Some (request_of Sample.urljoin Sample.version (self Sample.fresh)
               table_rows_endpoint
               (PDict [("code", PStr "user2"); ("table", PStr "longtable");
                       ("scope", PStr "user2"); ("json", PBool true);
                       ("limit", PInt 1000)]))
    /\ (forall i p r,
          [Sample.page1] !! i = Some p -> reqs !! S i = Some r ->
          exists d tok,
            req_json r = PDict d /\ page_next_key p = Some tok /\
            dict_get d "lower_bound" = Some tok).
Proof.
  apply (full_read_concatenates_pages Sample.urljoin Sample.version
           (Sample.then_ Sample.page1 Sample.page2)
           (PStr "user2") (PStr "longtable") (PStr "user2") (PBool true)
           PNone PNone PNone PNone PNone (PInt 1000) PNone PNone
           [Sample.page1] Sample.page2 Sample.fresh).
  - exact I.
  - repeat constructor.
  - reflexivity.
  - simpl. lia.
  - apply sample_served.
Defined.

Lemma endless_pages_hit_the_cap_witness :
  exists st',
    get_table_rows Sample.urljoin Sample.version
      (Sample.always (Ok Sample.page1))
      (PStr "user2") (PStr "longtable") (PStr "user2") (PBool true)
      PNone PNone PNone PNone PNone (PInt 1) PNone PNone true Sample.fresh
    = (Raise (ValueError "Too many requests (>1000) for table"), st')
    /\ length (posts (trace st')) = 1000%nat.
Proof.
  apply (proj2 (endless_pages_hit_the_cap Sample.urljoin Sample.version
                  (Sample.always (Ok Sample.page1))
                  (PStr "user2") (PStr "longtable") (PStr "user2")
                  (PBool true) PNone PNone PNone PNone PNone (PInt 1) PNone
                  PNone Sample.fresh)).
  - exact I.
  - intros i r _. exists Sample.page1. split; reflexivity.
Defined.

Lemma full_read_returns_rowless_body_witness :
  exists d,
    json_body Sample.error_page = Some (PDict d) /\
    dict_get d "rows" = None /\
    fst (get_table_rows Sample.urljoin Sample.version
           (Sample.then_ Sample.page1 Sample.error_page)
           (PStr "user2") (PStr "longtable") (PStr "user2") (PBool true)
           PNone PNone PNone PNone PNone (PInt 1000) PNone PNone true
           Sample.fresh)
    = Ok (PDict d).
Proof.
  apply (full_read_returns_rowless_body Sample.urljoin Sample.version
           (Sample.then_ Sample.page1 Sample.error_page)
           (PStr "user2") (PStr "longtable") (PStr "user2") (PBool true)
           PNone PNone PNone PNone PNone (PInt 1000) PNone PNone
           [Sample.page1] Sample.error_page Sample.fresh).
  - exact I.
  - repeat constructor.
  - reflexivity.
  - simpl. lia.
  - apply sample_served.
Defined.

Lemma full_read_missing_next_key_witness :
  fst (get_table_rows Sample.urljoin Sample.version
         (Sample.then_ Sample.page1 Sample.page_without_key)
         (PStr "user2") (PStr "longtable") (PStr "user2") (PBool true)
         PNone PNone PNone PNone PNone (PInt 1000) PNone PNone true
         Sample.fresh)
  = Raise (KeyError "next_key")
  /\ typed_failure (KeyError "next_key") = false.
Proof.
  apply (full_read_missing_next_key Sample.urljoin Sample.version
           (Sample.then_ Sample.page1 Sample.page_without_key)
           (PStr "user2") (PStr "longtable") (PStr "user2") (PBool true)
           PNone PNone PNone PNone PNone (PInt 1000) PNone PNone
           [Sample.page1] Sample.page_without_key Sample.fresh).
  - exact I.
  - repeat constructor.
  - reflexivity.
  - simpl. lia.
  - apply sample_served.
Defined.

Lemma scope_exit_closes_held_handle_witness :
  (creations (trace (snd (_request Sample.urljoin Sample.version
                            (Sample.always (Ok Sample.info_page))
                            "/v1/chain/get_info" (PDict []) Sample.fresh)))
   = [0%nat]
   /\ exits (trace (snd (_request Sample.urljoin Sample.version
                           (Sample.always (Ok Sample.info_page))
                           "/v1/chain/get_info" (PDict []) Sample.fresh)))
      = [])
  /\ (closed (snd (with_net
                     (call_all Sample.urljoin Sample.version
                        (Sample.always (Ok Sample.info_page))
                        [("/v1/chain/get_info", PDict [])])
                     Sample.supplied)) 0%nat = true)
  /\ (closed (snd (with_net
                     (call_all Sample.urljoin Sample.version
                        (Sample.always (Ok Sample.info_page))
                        [("/v1/chain/get_info", PDict [])])
                     Sample.fresh)) 0%nat = true).
Proof.
  pose proof (scope_exit_closes_held_handle Sample.urljoin Sample.version
                (Sample.always (Ok Sample.info_page))
                [("/v1/chain/get_info", PDict [])]
                "/v1/chain/get_info" (PDict [])) as H.
  split; [|split].
  - destruct (proj1 (H Sample.fresh) eq_refl) as [Hc [He _]].
    split; [exact Hc|exact He].
  - exact (proj1 (proj1 (proj2 (H Sample.supplied)) 0%nat eq_refl)).
  - exact (proj1 (proj2 (proj2 (H Sample.fresh)) eq_refl)).
Defined.

(** C4 as stated fails: [get_account(account_name=None)] hands the key
    [account_name] with value [None] to [post]. *)
Lemma request_sends_none_valued_key :
  map req_json
    (posts (trace (snd (get_account Sample.urljoin Sample.version
                          (Sample.always (Ok Sample.info_page))
                          PNone Sample.fresh))))
  = [PDict [("account_name", PNone)]].
Proof. reflexivity. Qed.

(** C5 as stated fails: the scope closes the handle the caller supplied,
    though the core created no handle at all; and a handle created for a
    call outside a scope is not closed by that call. *)
Lemma scope_exit_closes_supplied_handle :
  client (self Sample.supplied) = Some 0%nat
  /\ closed Sample.supplied 0%nat = false
  /\ creations (trace (snd (with_net
                              (get_info Sample.urljoin Sample.version
                                 (Sample.always (Ok Sample.info_page)))
                              Sample.supplied))) = []
  /\ exits (trace (snd (with_net
                          (get_info Sample.urljoin Sample.version
                             (Sample.always (Ok Sample.info_page)))
                          Sample.supplied))) = [0%nat]
  /\ closed (snd (with_net
                    (get_info Sample.urljoin Sample.version
                       (Sample.always (Ok Sample.info_page)))
                    Sample.supplied)) 0%nat = true
  /\ creations (trace (snd (get_info Sample.urljoin Sample.version
                              (Sample.always (Ok Sample.info_page))
                              Sample.fresh))) = [0%nat]
  /\ closed (snd (get_info Sample.urljoin Sample.version
                    (Sample.always (Ok Sample.info_page)) Sample.fresh))
       0%nat = false.
Proof. repeat split; reflexivity. Qed.

Lemma request_headers_overlay_witness :
  exists r,
    posts (trace (snd (_request Sample.urljoin Sample.version
                         (Sample.always (Ok Sample.info_page))
                         "/v1/chain/get_info" (PDict []) Sample.custom)))
      = [r]
    /\ dict_get (req_headers r) "user-agent" = Some "aaa"
    /\ dict_get (req_headers r) "x-bbb" = Some "ccc"
    /\ dict_get (req_headers r) "content-type" = Some "application/json".
Proof.
  destruct (request_headers_overlay Sample.urljoin Sample.version
              (Sample.always (Ok Sample.info_page))
              "/v1/chain/get_info" (PDict []) Sample.custom)
    as [r [Hp [_ [_ Hh]]]].
  - repeat constructor; simpl; intuition discriminate.
  - exists r. split; [exact Hp|].
    split; [exact (Hh "user-agent")|].
    split; [exact (Hh "x-bbb")|exact (Hh "content-type")].
Defined.

Lemma uncaught_error_propagates_witness :
  fst (_request Sample.urljoin Sample.version
         (Sample.always (Raise Sample.disconnected))
         "/v1/chain/get_info" (PDict []) Sample.fresh)
  = Raise Sample.disconnected.
Proof.
  apply (uncaught_error_propagates Sample.urljoin Sample.version
           (Sample.always (Raise Sample.disconnected))
           "/v1/chain/get_info" (PDict []) Sample.fresh Sample.disconnected);
    reflexivity.
Defined.

Lemma undecodable_body_witness :
  fst (_request Sample.urljoin Sample.version
         (Sample.always (Ok Sample.garbled))
         "/v1/chain/get_info" (PDict []) Sample.fresh)
  = Raise JSONDecodeError.
Proof.
  apply (proj1 (undecodable_body Sample.urljoin Sample.version
                  (Sample.always (Ok Sample.garbled))
                  "/v1/chain/get_info" (PDict []) Sample.fresh Sample.garbled
                  eq_refl eq_refl)).
  reflexivity.
Defined.

Lemma not_full_returns_first_page_witness :
  fst (get_table_rows Sample.urljoin Sample.version
         (Sample.always (Ok Sample.page1))
         (PStr "user2") (PStr "longtable") (PStr "user2") (PBool true)
         PNone PNone PNone PNone PNone (PInt 1000) PNone PNone false
         Sample.fresh)
  = Ok (PList [PInt 1; PInt 2]).
Proof.
  apply (not_full_returns_first_page Sample.urljoin Sample.version
           (Sample.always (Ok Sample.page1))
           (PStr "user2") (PStr "longtable") (PStr "user2") (PBool true)
           PNone PNone PNone PNone PNone (PInt 1000) PNone PNone
           Sample.page1 Sample.fresh).
  - exact I.
  - reflexivity.
  - reflexivity.
Defined.

Lemma failed_page_discards_rows_witness :
  fst (get_table_rows Sample.urljoin Sample.version
         (Sample.then_raise Sample.page1 Sample.read_timeout)
         (PStr "user2") (PStr "longtable") (PStr "user2") (PBool true)
         PNone PNone PNone PNone PNone (PInt 1000) PNone PNone true
         Sample.fresh)
  = Raise (ConnectionError None
             "http://127.0.0.1:8888/v1/chain/get_table_rows"
             (PDict [("code", PStr "user2"); ("table", PStr "longtable");
                     ("scope", PStr "user2"); ("json", PBool true);
                     ("limit", PInt 1000); ("lower_bound", PStr "x")])
             (Some Sample.read_timeout)).
Proof.
  apply (failed_page_discards_rows Sample.urljoin Sample.version
           (Sample.then_raise Sample.page1 Sample.read_timeout)
           (PStr "user2") (PStr "longtable") (PStr "user2") (PBool true)
           PNone PNone PNone PNone PNone (PInt 1000) PNone PNone
           [Sample.page1] Sample.read_timeout Sample.fresh).
  - exact I.
  - repeat constructor.
  - simpl. lia.
  - intros [|i] p r H; simpl in H; try discriminate.
    injection H as <-. reflexivity.
  - intros r. reflexivity.
  - reflexivity.
Defined.

Lemma malformed_body_raises_type_error_witness :
  fst (get_table_rows Sample.urljoin Sample.version
         (Sample.always (Ok Sample.null_body))
         (PStr "user2") (PStr "longtable") (PStr "user2") (PBool true)
         PNone PNone PNone PNone PNone (PInt 1000) PNone PNone true
         Sample.fresh)
  = Raise TypeError.
Proof.
  apply (proj1 (malformed_body_raises_type_error Sample.urljoin Sample.version
                  (Sample.always (Ok Sample.null_body))
                  (PStr "user2") (PStr "longtable") (PStr "user2")
                  (PBool true) PNone PNone PNone PNone PNone (PInt 1000)
                  PNone PNone true Sample.null_body PNone Sample.fresh
                  I eq_refl eq_refl eq_refl)).
  reflexivity.
Defined.

Lemma ephemeral_handle_per_call_witness :
  creations (trace (run_each Sample.urljoin Sample.version
                      (Sample.always (Ok Sample.info_page))
                      [("/v1/chain/get_info", PDict []);
                       ("/v1/chain/get_info", PDict [])] Sample.fresh))
  = [0%nat; 1%nat].
Proof.
  apply (proj1 (ephemeral_handle_per_call Sample.urljoin Sample.version
                  (Sample.always (Ok Sample.info_page))
                  [("/v1/chain/get_info", PDict []);
                   ("/v1/chain/get_info", PDict [])] Sample.fresh eq_refl)).
Defined.

Lemma reentered_scope_fails_witness :
  fst (with_net
         (call_all Sample.urljoin Sample.version
            (Sample.always (Ok Sample.info_page))
            [("/v1/chain/get_info", PDict [])])
         Sample.left_scope)
  = Raise (RuntimeError closed_msg).
Proof.
  apply (proj1 (reentered_scope_fails Sample.urljoin Sample.version
                  (Sample.always (Ok Sample.info_page))
                  "/v1/chain/get_info" (PDict []) [] Sample.left_scope
                  (ex_intro _ 0%nat (conj eq_refl eq_refl)))).
Defined.

Lemma abi_binargs_round_trip_witness :
  fst (abi_json_to_bin Sample.urljoin Sample.version
         (Sample.always (Ok Sample.binargs_page))
         (PStr "user2") (PStr "sendmsg") (PDict []) Sample.fresh)
  = Ok (inr [xde; xad]%list).
Proof.
  apply (proj1 (abi_binargs_round_trip Sample.urljoin Sample.version
                  (Sample.always (Ok Sample.binargs_page))
                  (PStr "user2") (PStr "sendmsg") (PDict []) [xde; xad]
                  Sample.binargs_page [("binargs", PStr "dead")]
                  Sample.fresh I (fun _ => eq_refl) eq_refl eq_refl eq_refl)).
Defined.

Lemma abi_methods_on_error_body_witness :
  fst (abi_json_to_bin Sample.urljoin Sample.version
         (Sample.always (Ok Sample.error_page))
         (PStr "user2") (PStr "sendmsg") (PDict []) Sample.fresh)
  = Ok (inl (PDict [("code", PInt 500);
                    ("message", PStr "Internal Service Error")]))
  /\ fst (abi_bin_to_json Sample.urljoin Sample.version
            (Sample.always (Ok Sample.error_page))
            (PStr "user2") (PStr "sendmsg") [xde; xad] Sample.fresh)
     = Raise (KeyError "args").
Proof.
  pose proof (abi_methods_on_error_body Sample.urljoin Sample.version
                (Sample.always (Ok Sample.error_page))
                (PStr "user2") (PStr "sendmsg") (PDict []) [xde; xad]
                Sample.error_page _ Sample.fresh I (fun _ => eq_refl)
                eq_refl eq_refl) as [H1 H2].
  split; [apply H1|apply H2]; reflexivity.
Defined.

Lemma get_abi_single_entry_witness :
  fst (get_abi Sample.urljoin Sample.version
         (Sample.always (Ok Sample.no_abi_page)) (PStr "user1") Sample.fresh)
  = Ok PNone.
Proof.
  apply (proj1 (get_abi_single_entry Sample.urljoin Sample.version
                  (Sample.always (Ok Sample.no_abi_page)) (PStr "user1")
                  Sample.no_abi_page _ Sample.fresh I (fun _ => eq_refl)
                  eq_refl eq_refl)).
  reflexivity.
Defined.

Lemma raw_code_and_abi_decodes_in_place_witness :
  exists out,
    fst (get_raw_code_and_abi Sample.urljoin Sample.version
           (Sample.always (Ok Sample.raw_page)) Sample.b64decode_empty
           (PStr "user1") Sample.fresh) = Ok out
    /\ dict_keys out = ["account_name"; "wasm"; "abi"]
    /\ dict_get out "abi" = Some (Bytes [])
    /\ dict_get out "wasm" = Some (Bytes [])
    /\ (forall k, k <> "abi" -> k <> "wasm" ->
                  dict_get out k =
                  option_map Obj
                    (dict_get [("account_name", PStr "user1");
                               ("wasm", PStr ""); ("abi", PStr "")] k)).
Proof.
  apply (raw_code_and_abi_decodes_in_place Sample.urljoin Sample.version
           (Sample.always (Ok Sample.raw_page)) Sample.b64decode_empty
           (PStr "user1") Sample.raw_page _ (PStr "") (PStr "") [] []
           Sample.fresh I (fun _ => eq_refl) eq_refl eq_refl eq_refl eq_refl
           eq_refl eq_refl).
Defined.

Lemma raw_code_and_abi_missing_key_witness :
  fst (get_raw_code_and_abi Sample.urljoin Sample.version
         (Sample.always (Ok Sample.error_page)) Sample.b64decode_empty
         (PStr "user1") Sample.fresh)
  = Raise (KeyError "abi").
Proof.
  apply (proj1 (raw_code_and_abi_missing_key Sample.urljoin Sample.version
                  (Sample.always (Ok Sample.error_page))
                  Sample.b64decode_empty (PStr "user1") Sample.error_page _
                  Sample.fresh I (fun _ => eq_refl) eq_refl eq_refl)).
  reflexivity.
Defined.

Lemma none_filters_agree_witness :
  del_none_keys [("code", PStr "user2"); ("table", PNone); ("limit", PInt 5)]
  = [("code", PStr "user2"); ("limit", PInt 5)].
Proof.
  apply (proj1 (none_filters_agree
                  [("code", PStr "user2"); ("table", PNone);
                   ("limit", PInt 5)]
                  ltac:(repeat constructor; simpl; intuition discriminate))).
Defined.
